(** * The [create] command of the Cube.js command-line tool

    A shallow embedding of [CreateCommand.execute]
    (packages/cubejs-cli/src/command/create.command.ts) and the properties
    of the project scaffolder that the specification states about it.

    [execute] is a straight-line asynchronous routine: every [await] is
    sequenced, but for the callbacks of the one [Promise.all], which
    interleave. The embedding is a state monad over the mutable objects
    the routine touches, which also collects the side effects in the order
    they are issued and records how the run ends (it returns, the process
    exits, or the promise is rejected). *)

From Stdlib Require Import Strings.Ascii Strings.String Strings.Byte.
From stdpp Require Import base option list gmap strings sorting.

Set Default Proof Using "Type".

(** ** Data model *)

(** The [options] argument, [{ template?: string, dbType?: string }].
    An absent property is [None]. *)
Record Options := {
  opt_template : option string;
  opt_dbType : option string
}.

(** [createAppOptions], the object [{ projectName, dbType, template }]. *)
Record CreateOptions := {
  co_projectName : string;
  co_dbType : option string;
  co_template : string
}.

(** [env], the object handed to every file renderer. *)
Record Environment := {
  env_dbType : option string;
  env_apiSecret : string;
  env_projectName : string;
  env_driverEnvVariables : option (list string)
}.

(** An entry of the template registry ([../templates]). The routine tests
    [dependencies] and [devDependencies] for presence, so both are
    optional. *)
Record TemplateConfig := {
  tc_scripts : gmap string string;
  tc_files : gmap string (Environment → string);
  tc_dependencies : option (list string);
  tc_devDependencies : option (list string)
}.

(** What the property read [templates[template]] yields when it is not
    [undefined]. The registry is an object literal, so besides its own
    entries the read finds the members of [Object.prototype]: functions,
    and the prototype itself under [__proto__]. These are truthy and have
    none of the four properties of an entry. *)
Inductive TemplateValue :=
  | Registered (templateConfig : TemplateConfig)
  | Inherited.

(** [templateConfig.scripts], [.files], [.dependencies] and
    [.devDependencies]; [None] is [undefined]. *)
Definition scripts_of (v : TemplateValue) : option (gmap string string) :=
  match v with
  | Registered templateConfig => Some (tc_scripts templateConfig)
  | Inherited => None
  end.

Definition files_of (v : TemplateValue)
  : option (gmap string (Environment → string)) :=
  match v with
  | Registered templateConfig => Some (tc_files templateConfig)
  | Inherited => None
  end.

Definition dependencies_of (v : TemplateValue) : option (list string) :=
  match v with
  | Registered templateConfig => tc_dependencies templateConfig
  | Inherited => None
  end.

Definition devDependencies_of (v : TemplateValue) : option (list string) :=
  match v with
  | Registered templateConfig => tc_devDependencies templateConfig
  | Inherited => None
  end.

(** What [CubejsServer.driverDependencies] answers: one package name or an
    array of package names. *)
Inductive DriverDependency :=
  | OnePackage (name : string)
  | Packages (names : list string).

(** A Maven coordinate, and the part of a JDBC descriptor the routine
    reads. *)
Record MavenDependency := {
  groupId : string;
  artifactId : string;
  mvn_version : string
}.

Record DbTypeDescription := {
  mavenDependency : option MavenDependency
}.

(** The driver class, of which only the optional static method
    [driverEnvVariables] is probed; [Some l] is a method returning [l]. *)
Record DriverClass := {
  driverEnvVariables : option (list string)
}.

(** [package.json]. The first four fields are the ones the routine writes;
    [pj_java] is the field merged for JDBC drivers, the last two are the
    fields a package manager maintains. An absent field is [None]. *)
Record JavaField := {
  java_dependencies : list MavenDependency
}.

Record PackageJson := {
  pj_name : option string;
  pj_version : option string;
  pj_private : option bool;
  pj_scripts : option (gmap string string);
  pj_java : option JavaField;
  pj_dependencies : option (gmap string string);
  pj_devDependencies : option (gmap string string)
}.

(** Outcome of a child process: it fails, or it completes and leaves the
    manifest of the working directory in some state. *)
Inductive CommandResult :=
  | CommandFailed
  | CommandDone (manifest : option PackageJson).

(** The collaborators of the routine, which live outside it:
    - [templates], the own entries of the template registry of
      [../templates], and [Drivers], the table of [DriverDependencies.js]
      (line 76), as finite maps from their own keys;
    - [pathExists], the file system as it is when the command starts;
    - [driverDependencies], the lookup of [@cubejs-backend/server]
      (line 89), and [dbTypeDescription], the lookup of the JDBC driver
      (line 102), both called with whatever [options.dbType] holds;
    - [requireDriver], the class exported by the package named first
      (line 122), if it can be loaded;
    - [promptAnswer], the choice the user makes among the given keys;
    - [npm] and [command], what installing packages and running a command
      do to the manifest of the working directory, if they succeed;
    - [entropy], the bytes [crypto.randomBytes] draws;
    - [latency], how long the [ensureDir] issued for a declared file
      takes, which decides the order in which the callbacks of
      [Promise.all] resume (line 130);
    - [chalk_green], [chalk_red] and [dirname], the helpers of [chalk] and
      [path]. *)
Record Collaborators := {
  templates : gmap string TemplateConfig;
  pathExists : string → bool;
  Drivers : gmap string DriverDependency;
  driverDependencies : option string → option DriverDependency;
  dbTypeDescription : option string → option DbTypeDescription;
  requireDriver : option string → option DriverClass;
  promptAnswer : list string → string;
  npm : list string → option PackageJson → CommandResult;
  command : string → list string → option PackageJson → CommandResult;
  entropy : nat → byte;
  latency : string → nat;
  chalk_green : string → string;
  chalk_red : string → string;
  dirname : string → string
}.

(** ** Interactions

    What a run does to the outside, in the order it does it: telemetry,
    messages, file-system and process operations, child processes, the
    prompt, and the calls into the driver registry and the renderers of
    the template with the argument they receive. *)

Inductive EventProps :=
  | CreateAppProps (o : CreateOptions)
  | SuccessProps (projectName : string) (dbType : option string).

Inductive Event :=
  | Track (name : string) (props : EventProps)
  | DisplayError (text : string) (o : CreateOptions)
  | EnsureDir (dir : string)
  | Chdir (dir : string)
  | LogStage (message : string)
  | WritePackageJson (json : PackageJson)
  | NpmInstall (packages : list string)
  | Prompt (choices : list string)
  | ExecuteCommand (cmd : string) (args : list string)
  | DriverDependenciesCall (dbType : option string)
  | DbTypeDescriptionCall (dbType : option string)
  | Render (fileName : string) (env : Environment)
  | WriteFile (fileName : string) (content : string)
  | ConsoleLog (line : string).

(** How the promise of [execute] is rejected: a property of [undefined]
    is read, a child process fails, a module cannot be loaded, the manifest
    cannot be read back, the directory to enter does not exist. *)
Inductive Failure :=
  | TypeError
  | InstallFailed
  | ModuleNotFound
  | FileNotFound
  | NoSuchDirectory.

(** Mutable state: the [options] object (the routine assigns to it), the
    manifest in the project directory and the directories entered with
    [process.chdir], innermost first. *)
Record World := {
  w_options : Options;
  w_packageJson : option PackageJson;
  w_cwd : list string
}.

Inductive Outcome (A : Type) :=
  | Returned (a : A)
  | Exited
  | Thrown (e : Failure).
Arguments Returned {A} a.
Arguments Exited {A}.
Arguments Thrown {A} e.

Record Run (A : Type) := {
  emitted : list Event;
  world : World;
  outcome : Outcome A
}.
Arguments emitted {A} r.
Arguments world {A} r.
Arguments outcome {A} r.

Definition M (A : Type) : Type := World → Run A.

Definition ret {A} (a : A) : M A :=
  λ w, {| emitted := []; world := w; outcome := Returned a |}.

Definition bind {A B} (m : M A) (k : A → M B) : M B :=
  λ w,
    let r := m w in
    match outcome r with
    | Returned a =>
        let r' := k a (world r) in
        {| emitted := emitted r ++ emitted r';
           world := world r';
           outcome := outcome r' |}
    | Exited => {| emitted := emitted r; world := world r; outcome := Exited |}
    | Thrown e => {| emitted := emitted r; world := world r; outcome := Thrown e |}
    end.

#[global] Instance M_ret : MRet M := @ret.
#[global] Instance M_bind : MBind M := λ A B k m, bind m k.

Definition emit (e : Event) : M unit :=
  λ w, {| emitted := [e]; world := w; outcome := Returned tt |}.

Definition throw {A} (e : Failure) : M A :=
  λ w, {| emitted := []; world := w; outcome := Thrown e |}.

Definition exit {A} : M A :=
  λ w, {| emitted := []; world := w; outcome := Exited |}.

Definition get_options : M Options :=
  λ w, {| emitted := []; world := w; outcome := Returned (w_options w) |}.

Definition modify (f : World → World) : M unit :=
  λ w, {| emitted := []; world := f w; outcome := Returned tt |}.

(** Updates of one component of the state. *)
Definition with_packageJson (manifest : option PackageJson) (w : World) : World :=
  {| w_options := w_options w; w_packageJson := manifest; w_cwd := w_cwd w |}.

Definition with_dbType (v : option string) (w : World) : World :=
  {| w_options := {| opt_template := opt_template (w_options w);
                     opt_dbType := v |};
     w_packageJson := w_packageJson w;
     w_cwd := w_cwd w |}.

Definition entered (dir : string) (w : World) : World :=
  {| w_options := w_options w;
     w_packageJson := w_packageJson w;
     w_cwd := dir :: w_cwd w |}.

(** ** JavaScript values *)

(** Truthiness of a [string | undefined]. *)
Definition truthy (v : option string) : bool :=
  match v with
  | Some s => negb (String.eqb s "")
  | None => false
  end.

(** [v || d] *)
Definition js_or (v : option string) (d : string) : string :=
  match v with
  | Some s => if String.eqb s "" then d else s
  | None => d
  end.

(** A [string | undefined] inside a template literal. *)
Definition js_string (v : option string) : string := default "undefined" v.

(** Truthiness of the answer of [driverDependencies]: an array is truthy
    even when empty, a string unless empty. *)
Definition truthy_dependency (v : option DriverDependency) : bool :=
  match v with
  | Some (OnePackage s) => negb (String.eqb s "")
  | Some (Packages _) => true
  | None => false
  end.

(** [Array.isArray(d) ? d : [d]], for a truthy [d]. *)
Definition to_array (v : option DriverDependency) : list string :=
  match v with
  | Some (OnePackage s) => [s]
  | Some (Packages l) => l
  | None => []
  end.

(** [driverDependencies[0] === '@cubejs-backend/jdbc-driver'] *)
Definition first_is_jdbc (driverDependencies : list string) : bool :=
  bool_decide (head driverDependencies = Some "@cubejs-backend/jdbc-driver").

(** [Object.keys] of an object with the own entries [m]. The order in
    which a finite map lists its entries stands for the order in which the
    object enumerates its keys; which order that is plays no part in the
    statements below. *)
Definition keys {V} (m : gmap string V) : list string := (map_to_list m).*1.

(** The property names every object literal inherits from
    [Object.prototype]. *)
Definition object_prototype : list string :=
  ["constructor"; "__defineGetter__"; "__defineSetter__"; "hasOwnProperty";
   "__lookupGetter__"; "__lookupSetter__"; "isPrototypeOf";
   "propertyIsEnumerable"; "toString"; "valueOf"; "__proto__";
   "toLocaleString"].

(** ** [crypto.randomBytes(n).toString('hex')] *)

Definition randomBytes (src : nat → byte) (n : nat) : list byte :=
  src <$> seq 0 n.

Definition hex_digit (n : nat) : ascii :=
  match n with
  | 0 => "0" | 1 => "1" | 2 => "2" | 3 => "3" | 4 => "4" | 5 => "5"
  | 6 => "6" | 7 => "7" | 8 => "8" | 9 => "9" | 10 => "a" | 11 => "b"
  | 12 => "c" | 13 => "d" | 14 => "e" | _ => "f"
  end%char.

Definition hex_of_byte (b : byte) : string :=
  let n := Byte.to_nat b in
  String (hex_digit (n / 16)) (String (hex_digit (n mod 16)) EmptyString).

Fixpoint toString_hex (bs : list byte) : string :=
  match bs with
  | [] => ""
  | b :: bs' => hex_of_byte b +:+ toString_hex bs'
  end.

Definition is_hex_char (c : ascii) : bool :=
  bool_decide (c ∈ list_ascii_of_string "0123456789abcdef").

(** ** The helpers of the command *)

Section Create.
Variable C : Collaborators.

(** Modelled from the spec: [displayError] of [../utils] is not among the
    sources. The spec has every reported error terminal (4.1: a
    user-reported failure that aborts the remaining pipeline, "the process
    does not continue after reporting"; 7: "all are terminal for the
    invocation"), without unwinding the caller: the helper shows the
    message and the process ends inside it, so it never returns. *)
Definition displayError {A} (text : string) (o : CreateOptions) : M A :=
  emit (DisplayError text o);; exit.

(** Modelled from the spec: [event] of [../utils], the telemetry emitter,
    "fire-and-forget event reporting". *)
Definition event (name : string) (props : EventProps) : M unit :=
  emit (Track name props).

(** Modelled from the spec: [logStage] of [../logger], which tells the
    user which step has begun. *)
Definition logStage (message : string) : M unit :=
  emit (LogStage message).

(** Modelled from the spec: [writePackageJson] of [../packages], the
    package-manifest writer, "write(manifestObject) -> completion". *)
Definition writePackageJson (json : PackageJson) : M unit :=
  emit (WritePackageJson json);;
  modify (with_packageJson (Some json)).

(** The effect of a child process on the run. *)
Definition subprocess (run : option PackageJson → CommandResult) : M unit :=
  λ w,
    match run (w_packageJson w) with
    | CommandFailed =>
        {| emitted := []; world := w; outcome := Thrown InstallFailed |}
    | CommandDone manifest =>
        {| emitted := [];
           world := with_packageJson manifest w;
           outcome := Returned tt |}
    end.

(** Modelled from the spec: [npmInstall] of [../packages], the package
    installer, "install(packageNames) -> completion or failure". *)
Definition npmInstall (packages : list string) : M unit :=
  emit (NpmInstall packages);; subprocess (npm C packages).

(** Modelled from the spec: [executeCommand] of [../packages], a blocking
    subprocess call awaited to completion, whose failure propagates. *)
Definition executeCommand (cmd : string) (args : list string) : M unit :=
  emit (ExecuteCommand cmd args);; subprocess (command C cmd args).

(** [fs.readJson('package.json')] *)
Definition readJson : M PackageJson :=
  λ w,
    match w_packageJson w with
    | Some json => {| emitted := []; world := w; outcome := Returned json |}
    | None => {| emitted := []; world := w; outcome := Thrown FileNotFound |}
    end.

(** [process.chdir(dir)], called for a directory that [ensureDir] has just
    made sure of. The empty path names no directory: [ensureDir] has
    nothing to create for it and [process.chdir] throws. *)
Definition chdir (dir : string) : M unit :=
  emit (Chdir dir);;
  if String.eqb dir "" then throw NoSuchDirectory
  else modify (entered dir).

(** [inquirer.prompt] with one question of type [list]. *)
Definition prompt (choices : list string) : M string :=
  emit (Prompt choices);; mret (promptAnswer C choices).

(** [options.dbType = v] *)
Definition set_dbType (v : option string) : M unit :=
  modify (with_dbType v).

(** Modelled from the spec: [requireFromPackage] of [../utils] applied to
    the first driver package; later steps "depend on packages installed by
    earlier steps being present and loadable". The calls of lines 76 and
    88 and the [require] of line 101 name a fixed module of a package whose
    installation has just completed, and are taken to load it: [Drivers],
    [driverDependencies] and [dbTypeDescription] are what they give. The
    call of line 122 names whatever the lookup has answered first, which
    may be no name at all. *)
Definition requireFromPackage (name : option string) : M DriverClass :=
  match requireDriver C name with
  | Some driverClass => mret driverClass
  | None => throw ModuleNotFound
  end.

(** ** [CreateCommand.execute] *)

(** Lines 39-40. *)
Definition template_of (options : Options) : string :=
  js_or (opt_template options) "express".

Definition createAppOptions_of (projectName : string) (options : Options)
  : CreateOptions :=
  {| co_projectName := projectName;
     co_dbType := opt_dbType options;
     co_template := template_of options |}.

(** The messages of lines 46-48 and 54; the first ends with a line
    feed. *)
Definition directory_exists (projectName : string) : string :=
  "We cannot create a project called " +:+ chalk_green C projectName
    +:+ ": directory already exist." +:+ String "010" "".

Definition unknown_template (template : string) : string :=
  "Unknown template " +:+ chalk_red C template.

(** [templates[template]]: an own entry of the registry if there is one,
    else what the registry inherits under that name, else [undefined]. *)
Definition templates_at (template : string) : option TemplateValue :=
  match templates C !! template with
  | Some templateConfig => Some (Registered templateConfig)
  | None =>
      if bool_decide (template ∈ object_prototype) then Some Inherited
      else None
  end.

(** Lines 42-57: telemetry and the two checks. *)
Definition check (projectName template : string)
    (createAppOptions : CreateOptions) : M unit :=
  event "Create App" (CreateAppProps createAppOptions);;
  (if pathExists C projectName
   then displayError (directory_exists projectName) createAppOptions
   else mret tt);;
  match templates_at template with
  | None => displayError (unknown_template template) createAppOptions
  | Some _ => mret tt
  end.

(** Lines 65-70: the manifest written first. *)
Definition initial_manifest (projectName : string)
    (templateConfig : TemplateValue) : PackageJson :=
  {| pj_name := Some projectName;
     pj_version := Some "0.0.1";
     pj_private := Some true;
     pj_scripts := scripts_of templateConfig;
     pj_java := None;
     pj_dependencies := None;
     pj_devDependencies := None |}.

(** Lines 59-73: the directory, the manifest and the server package. *)
Definition scaffold (projectName template : string) : M TemplateValue :=
  emit (EnsureDir projectName);;
  chdir projectName;;
  let templateConfig := templates_at template in
  logStage "Creating project structure";;
  match templateConfig with
  | None => throw TypeError
  | Some templateConfig =>
      writePackageJson (initial_manifest projectName templateConfig);;
      logStage "Installing server dependencies";;
      npmInstall ["@cubejs-backend/server"];;
      mret templateConfig
  end.

(** Lines 75-85: the database type is asked for when [options] has
    none. *)
Definition select_database : M unit :=
  options ← get_options;
  if truthy (opt_dbType options) then mret tt
  else
    answer ← prompt (keys (Drivers C));
    set_dbType (Some answer).

(** The message of lines 91 and 104. *)
Definition unsupported_db_type (options : Options) : string :=
  "Unsupported db type: " +:+ chalk_green C (js_string (opt_dbType options)).

(** Lines 93-96: the list handed to the installer. *)
Definition packages_to_install (found : option DriverDependency)
  : list string :=
  let driverDependencies := to_array found in
  if first_is_jdbc driverDependencies
  then driverDependencies ++ ["node-java-maven"]
  else driverDependencies.

(** Lines 87-97: the driver packages. *)
Definition install_drivers (createAppOptions : CreateOptions)
  : M (list string) :=
  logStage "Installing DB driver dependencies";;
  options ← get_options;
  emit (DriverDependenciesCall (opt_dbType options));;
  let found := driverDependencies C (opt_dbType options) in
  if truthy_dependency found then
    let driverDependencies := packages_to_install found in
    npmInstall driverDependencies;;
    mret driverDependencies
  else displayError (unsupported_db_type options) createAppOptions.

(** Lines 108-114: the manifest after the JDBC merge. *)
Definition jdbc_manifest (dbTypeDescription : DbTypeDescription)
    (newPackageJson : PackageJson) : PackageJson :=
  {| pj_name := pj_name newPackageJson;
     pj_version := pj_version newPackageJson;
     pj_private := pj_private newPackageJson;
     pj_scripts :=
       Some (<["install" := "./node_modules/.bin/node-java-maven"]>
               (default ∅ (pj_scripts newPackageJson)));
     pj_java :=
       match mavenDependency dbTypeDescription with
       | Some coordinate => Some {| java_dependencies := [coordinate] |}
       | None => pj_java newPackageJson
       end;
     pj_dependencies := pj_dependencies newPackageJson;
     pj_devDependencies := pj_devDependencies newPackageJson |}.

(** Lines 99-118: the JDBC bridge. *)
Definition jdbc_setup (createAppOptions : CreateOptions)
    (driverDependencies : list string) : M unit :=
  if first_is_jdbc driverDependencies then
    logStage "Installing JDBC dependencies";;
    options ← get_options;
    emit (DbTypeDescriptionCall (opt_dbType options));;
    match dbTypeDescription C (opt_dbType options) with
    | None =>
        displayError (unsupported_db_type options) createAppOptions
    | Some description =>
        newPackageJson ← readJson;
        writePackageJson (jdbc_manifest description newPackageJson);;
        executeCommand "npm" ["install"]
    end
  else mret tt.

(** Lines 124-129. *)
Definition make_env (projectName : string) (options : Options)
    (driverClass : DriverClass) : Environment :=
  {| env_dbType := opt_dbType options;
     env_apiSecret := toString_hex (randomBytes (entropy C) 64);
     env_projectName := projectName;
     env_driverEnvVariables := driverEnvVariables driverClass |}.

(** Line 131: a callback of line 130 up to its first [await], where it
    has issued [ensureDir] for the directory of its file. *)
Definition ensure_file_dir (fileName : string) : M unit :=
  emit (EnsureDir (dirname C fileName)).

(** Line 132: the rest of the callback, run when its [ensureDir] has
    completed: the file is rendered and its write is issued. *)
Definition write_file (env : Environment)
    (file : string * (Environment → string)) : M unit :=
  emit (Render file.1 env);;
  emit (WriteFile file.1 (file.2 env)).

(** The statements [f x], one after the other. *)
Fixpoint for_each {A} (f : A → M unit) (l : list A) : M unit :=
  match l with
  | [] => mret tt
  | x :: l' => f x;; for_each f l'
  end.

(** The order in which the callbacks resume: by the time their
    [ensureDir] takes. *)
Definition resumed (files : gmap string (Environment → string))
  : list (string * (Environment → string)) :=
  merge_sort (H := λ a b, decide (latency C a.1 ≤ latency C b.1))
    (λ a b, latency C a.1 ≤ latency C b.1) (map_to_list files).

(** Lines 130-133: [Promise.all] over [Object.keys(files).map(async ...)].
    [map] starts every callback, and each runs up to its first [await]:
    all the [ensureDir] calls are issued, key by key, before any callback
    goes on. The callbacks then resume as their [ensureDir] completes. *)
Definition write_template_files (env : Environment)
    (files : gmap string (Environment → string)) : M unit :=
  for_each ensure_file_dir (keys files);;
  for_each (write_file env) (resumed files).

(** Lines 120-133: the files of the template. [Object.keys] throws when
    [templateConfig.files] is [undefined]. *)
Definition write_files (projectName : string) (templateConfig : TemplateValue)
    (driverDependencies : list string) : M unit :=
  logStage "Writing files from template";;
  driverClass ← requireFromPackage (head driverDependencies);
  options ← get_options;
  let env := make_env projectName options driverClass in
  match files_of templateConfig with
  | None => throw TypeError
  | Some files => write_template_files env files
  end.

(** Lines 135-143: the packages the template asks for. *)
Definition install_template_dependencies (templateConfig : TemplateValue)
  : M unit :=
  match dependencies_of templateConfig with
  | Some packages =>
      logStage "Installing template dependencies";;
      npmInstall packages
  | None => mret tt
  end;;
  match devDependencies_of templateConfig with
  | Some packages =>
      logStage "Installing template dev dependencies";;
      npmInstall packages
  | None => mret tt
  end.

(** Lines 145-153: the report of success. *)
Definition report_success (projectName : string) : M unit :=
  options ← get_options;
  event "Create App Success" (SuccessProps projectName (opt_dbType options));;
  logStage (chalk_green C projectName +:+ " app has been created 🎉");;
  emit (ConsoleLog "");;
  emit (ConsoleLog "📊 Next step: run dev server");;
  emit (ConsoleLog "");;
  emit (ConsoleLog ("     $ cd " +:+ projectName));;
  emit (ConsoleLog "     $ npm run dev");;
  emit (ConsoleLog "").

(** Lines 39-85: everything up to the choice of the database type. *)
Definition prepare (projectName : string) : M (CreateOptions * TemplateValue) :=
  options ← get_options;
  let template := template_of options in
  let createAppOptions := createAppOptions_of projectName options in
  check projectName template createAppOptions;;
  templateConfig ← scaffold projectName template;
  select_database;;
  mret (createAppOptions, templateConfig).

(** Lines 120-153: files, template packages, report. *)
Definition finish (projectName : string) (templateConfig : TemplateValue)
    (driverDependencies : list string) : M unit :=
  write_files projectName templateConfig driverDependencies;;
  install_template_dependencies templateConfig;;
  report_success projectName.

(** Lines 87-153: drivers, then the rest. *)
Definition build (projectName : string) (createAppOptions : CreateOptions)
    (templateConfig : TemplateValue) : M unit :=
  driverDependencies ← install_drivers createAppOptions;
  jdbc_setup createAppOptions driverDependencies;;
  finish projectName templateConfig driverDependencies.

Definition execute (projectName : string) : M unit :=
  '(createAppOptions, templateConfig) ← prepare projectName;
  build projectName createAppOptions templateConfig.

(** The state in which an invocation starts. *)
Definition start (options : Options) : World :=
  {| w_options := options; w_packageJson := None; w_cwd := [] |}.

End Create.

(** ** Reading a run *)

(** The choices of the prompts, the files written and the renderer calls,
    in the order of the run. *)
Definition prompts (l : list Event) : list (list string) :=
  omap (λ e, match e with Prompt choices => Some choices | _ => None end) l.

Definition writes (l : list Event) : list (string * string) :=
  omap (λ e, match e with
             | WriteFile fileName content => Some (fileName, content)
             | _ => None
             end) l.

Definition renders (l : list Event) : list (string * Environment) :=
  omap (λ e, match e with
             | Render fileName env => Some (fileName, env)
             | _ => None
             end) l.

(** The interactions of a callback of line 130 once it has resumed. *)
Definition file_events (env : Environment)
    (file : string * (Environment → string)) : list Event :=
  [Render file.1 env; WriteFile file.1 (file.2 env)].

(** The interactions of lines 130-133 for the files [files]. *)
Definition files_events (C : Collaborators) (env : Environment)
    (files : gmap string (Environment → string)) : list Event :=
  (EnsureDir ∘ dirname C <$> keys files) ++
  (resumed C files ≫= file_events env).

(** What has been done when the server package is installed. *)
Definition prepared (projectName : string) (o : CreateOptions)
    (templateConfig : TemplateValue) : list Event :=
  [Track "Create App" (CreateAppProps o);
   EnsureDir projectName; Chdir projectName;
   LogStage "Creating project structure";
   WritePackageJson (initial_manifest projectName templateConfig);
   LogStage "Installing server dependencies";
   NpmInstall ["@cubejs-backend/server"]].

(** A directory is created. *)
Definition creates_directory (e : Event) : Prop :=
  match e with EnsureDir _ => True | _ => False end.

(** A prompt is shown. *)
Definition asks (e : Event) : Prop :=
  match e with Prompt _ => True | _ => False end.

(** A manifest is written or a package is installed. *)
Definition writes_manifest_or_installs (e : Event) : Prop :=
  match e with
  | WritePackageJson _ | NpmInstall _ | ExecuteCommand _ _ => True
  | _ => False
  end.

(** A file of the template is rendered or written. *)
Definition touches_template_file (e : Event) : Prop :=
  match e with Render _ _ | WriteFile _ _ => True | _ => False end.

(** A step of the JDBC bridge: the descriptor lookup, a manifest write,
    the re-run of the installation. *)
Definition jdbc_step (e : Event) : Prop :=
  match e with
  | DbTypeDescriptionCall _ | WritePackageJson _ | ExecuteCommand _ _ => True
  | _ => False
  end.

(** Every step that takes a database type takes [k]. *)
Definition uses_dbType (k : option string) (e : Event) : Prop :=
  match e with
  | DriverDependenciesCall k' | DbTypeDescriptionCall k' => k' = k
  | Render _ env => env_dbType env = k
  | Track _ (SuccessProps _ k') => k' = k
  | _ => True
  end.

(** Every use of a [CreateOptions] record is a use of [o]. *)
Definition carries (o : CreateOptions) (e : Event) : Prop :=
  match e with
  | Track _ (CreateAppProps o') | DisplayError _ o' => o' = o
  | _ => True
  end.

(** The interactions that lines 39-85 can have for the project
    [projectName] when the record of the invocation is [o]. *)
Inductive prepare_event (C : Collaborators) (projectName : string)
    (o : CreateOptions) : Event → Prop :=
  | pe_track :
      prepare_event C projectName o (Track "Create App" (CreateAppProps o))
  | pe_report text : prepare_event C projectName o (DisplayError text o)
  | pe_ensure : prepare_event C projectName o (EnsureDir projectName)
  | pe_chdir : prepare_event C projectName o (Chdir projectName)
  | pe_stage message : prepare_event C projectName o (LogStage message)
  | pe_manifest json : prepare_event C projectName o (WritePackageJson json)
  | pe_install :
      prepare_event C projectName o (NpmInstall ["@cubejs-backend/server"])
  | pe_prompt : prepare_event C projectName o (Prompt (keys (Drivers C))).

(** The interactions that lines 87-118 can have while [options.dbType]
    is [k] and the record of the invocation is [o]. *)
Inductive drivers_event (C : Collaborators) (o : CreateOptions)
    (k : option string) : Event → Prop :=
  | de_stage message : drivers_event C o k (LogStage message)
  | de_lookup : drivers_event C o k (DriverDependenciesCall k)
  | de_install packages : drivers_event C o k (NpmInstall packages)
  | de_unsupported :
      drivers_event C o k
        (DisplayError
           ("Unsupported db type: " +:+ chalk_green C (js_string k)) o)
  | de_describe : drivers_event C o k (DbTypeDescriptionCall k)
  | de_manifest json : drivers_event C o k (WritePackageJson json)
  | de_rerun : drivers_event C o k (ExecuteCommand "npm" ["install"]).

(** The interactions that lines 120-153 can have for the project
    [projectName] while [options.dbType] is [k]. *)
Inductive finish_event (projectName : string) (k : option string)
  : Event → Prop :=
  | fe_stage message : finish_event projectName k (LogStage message)
  | fe_ensure dir : finish_event projectName k (EnsureDir dir)
  | fe_render fileName env :
      env_dbType env = k → env_projectName env = projectName →
      finish_event projectName k (Render fileName env)
  | fe_write fileName content :
      finish_event projectName k (WriteFile fileName content)
  | fe_install packages : finish_event projectName k (NpmInstall packages)
  | fe_track :
      finish_event projectName k
        (Track "Create App Success" (SuccessProps projectName k))
  | fe_console line : finish_event projectName k (ConsoleLog line).

(** No stage after the selection assigns to [options]. *)
Definition keeps_options (w w' : World) : Prop := w_options w' = w_options w.

(** The database type the steps after the selection work with. *)
Definition chosen_dbType (C : Collaborators) (options : Options)
  : option string :=
  if truthy (opt_dbType options) then opt_dbType options
  else Some (promptAnswer C (keys (Drivers C))).

(** A program logic for the runs: from a state satisfying [pre], every
    interaction of [m] satisfies [ev], and if [m] returns [a] the state
    satisfies [post a]. *)
Definition spec {A} (pre : World → Prop) (m : M A) (ev : Event → Prop)
    (post : A → World → Prop) : Prop :=
  ∀ w, pre w →
    Forall ev (emitted (m w)) ∧
    ∀ a, outcome (m w) = Returned a → post a (world (m w)).

(** [m] moves every state along [R], however it ends. *)
Definition preserves {A} (R : World → World → Prop) (m : M A) : Prop :=
  ∀ w, R w (world (m w)).

(** Two states that differ at most in [options.template]. *)
Definition same_but_template (w w' : World) : Prop :=
  opt_dbType (w_options w) = opt_dbType (w_options w') ∧
  w_packageJson w = w_packageJson w' ∧
  w_cwd w = w_cwd w'.

(** Two runs that do the same and end in the same way. *)
Definition same_run {A} (r r' : Run A) : Prop :=
  emitted r = emitted r' ∧ outcome r = outcome r' ∧
  same_but_template (world r) (world r').

(** [rewritten] is the manifest [json] after the JDBC merge for the
    descriptor [description]: the script [install] is the path of the
    Maven helper and the other scripts are as in [json]; the [java] field
    is the one-element list of the Maven coordinate if the descriptor has
    one and is as in [json] otherwise; the other fields are as in
    [json]. *)
Definition rewritten_for_jdbc (description : DbTypeDescription)
    (json rewritten : PackageJson) : Prop :=
  (∃ scripts,
     pj_scripts rewritten = Some scripts ∧
     scripts !! "install" = Some "./node_modules/.bin/node-java-maven" ∧
     ∀ name, name ≠ "install" →
       scripts !! name = default ∅ (pj_scripts json) !! name) ∧
  pj_java rewritten =
    match mavenDependency description with
    | Some coordinate => Some {| java_dependencies := [coordinate] |}
    | None => pj_java json
    end ∧
  pj_name rewritten = pj_name json ∧
  pj_version rewritten = pj_version json ∧
  pj_private rewritten = pj_private json ∧
  pj_dependencies rewritten = pj_dependencies json ∧
  pj_devDependencies rewritten = pj_devDependencies json.

(** The unknown-template error is among the reports of the invocation. *)
Definition reports_unknown_template (C : Collaborators)
    (projectName : string) (options : Options) : Prop :=
  ∃ o, DisplayError (unknown_template C (template_of options)) o
       ∈ emitted (execute C projectName (start options)).

(** ** A sample installation

    A registry with one template and two database types, one of them
    served by the JDBC bridge, on which the statements below are run. *)
Module Sample.

Definition express : TemplateConfig :=
  {| tc_scripts := {[ "dev" := "node index.js" ]};
     tc_files :=
       {[ "index.js" := λ env, "// " +:+ env_projectName env;
          ".env" := λ env, "CUBEJS_API_SECRET=" +:+ env_apiSecret env ]};
     tc_dependencies := None;
     tc_devDependencies := Some ["serverless"] |}.

Definition registry : gmap string DriverDependency :=
  {[ "postgres" := OnePackage "@cubejs-backend/postgres-driver";
     "hive" := Packages ["@cubejs-backend/jdbc-driver"];
     "odd" := Packages ["@cubejs-backend/odd-driver";
                        "@cubejs-backend/jdbc-driver"] ]}.

Definition hive_jdbc : MavenDependency :=
  {| groupId := "org.apache.hive";
     artifactId := "hive-jdbc";
     mvn_version := "2.3.5" |}.

Definition installation : Collaborators :=
  {| templates := {[ "express" := express ]};
     pathExists := λ p, String.eqb p "taken";
     Drivers := registry;
     driverDependencies := λ k, k ≫= λ k, registry !! k;
     dbTypeDescription :=
       λ k, if decide (k = Some "hive")
            then Some {| mavenDependency := Some hive_jdbc |}
            else None;
     requireDriver :=
       λ n, (λ _, {| driverEnvVariables := Some ["CUBEJS_DB_HOST"] |}) <$> n;
     promptAnswer := λ choices, default "postgres" (last choices);
     npm := λ _ manifest, CommandDone manifest;
     command := λ _ _ manifest, CommandDone manifest;
     entropy := λ n, Byte.xab;
     latency := λ fileName, String.length fileName;
     chalk_green := λ s, s;
     chalk_red := λ s, s;
     dirname := λ _, "." |}.

Definition fresh (dbType : option string) : Options :=
  {| opt_template := None; opt_dbType := dbType |}.

End Sample.

(** ** Further readings of a run *)

(** The packages handed to the installer, call by call. *)
Definition installs (l : list Event) : list (list string) :=
  omap (λ e, match e with NpmInstall packages => Some packages | _ => None end)
    l.

(** An error is reported. *)
Definition is_report (e : Event) : Prop :=
  match e with DisplayError _ _ => True | _ => False end.

(** The success of the run is announced: the telemetry of lines 145 and
    the lines printed by lines 148-153. *)
Definition announces_success (e : Event) : Prop :=
  match e with
  | Track _ (SuccessProps _ _) | ConsoleLog _ => True
  | _ => False
  end.

(** The working directory is changed. *)
Definition changes_directory (e : Event) : Prop :=
  match e with Chdir _ => True | _ => False end.

(** The telemetry of the invocation (line 42). *)
Definition tracks_invocation (e : Event) : Prop :=
  match e with Track _ (CreateAppProps _) => True | _ => False end.

(** A run shows at most one report, as its last interaction, and has one
    exactly when the process exits. *)
Definition reported {A} (r : Run A) : Prop :=
  match outcome r with
  | Exited =>
      ∃ before text o,
        emitted r = before ++ [DisplayError text o] ∧
        Forall (λ e, ¬ is_report e) before
  | _ => Forall (λ e, ¬ is_report e) (emitted r)
  end.

(** The state keeps its [options] object and its working directory. *)
Definition keeps_frame (w w' : World) : Prop :=
  w_options w' = w_options w ∧ w_cwd w' = w_cwd w.

(** The interactions of lines 135-143 when both installations complete. *)
Definition template_dependency_events (templateConfig : TemplateValue)
  : list Event :=
  match dependencies_of templateConfig with
  | Some packages =>
      [LogStage "Installing template dependencies"; NpmInstall packages]
  | None => []
  end ++
  match devDependencies_of templateConfig with
  | Some packages =>
      [LogStage "Installing template dev dependencies"; NpmInstall packages]
  | None => []
  end.

(** The interactions of lines 145-153. *)
Definition success_events (C : Collaborators) (projectName : string)
    (dbType : option string) : list Event :=
  [Track "Create App Success" (SuccessProps projectName dbType);
   LogStage (chalk_green C projectName +:+ " app has been created 🎉");
   ConsoleLog "";
   ConsoleLog "📊 Next step: run dev server";
   ConsoleLog "";
   ConsoleLog ("     $ cd " +:+ projectName);
   ConsoleLog "     $ npm run dev";
   ConsoleLog ""].

(** The interactions of lines 99-118 when the bridge is set up for the
    descriptor [description] from the manifest [json]. *)
Definition bridge_events (dbType : option string)
    (description : DbTypeDescription) (json : PackageJson) : list Event :=
  [LogStage "Installing JDBC dependencies";
   DbTypeDescriptionCall dbType;
   WritePackageJson (jdbc_manifest description json);
   ExecuteCommand "npm" ["install"]].

(** ** The action registered by [configure] (lines 25-28) *)

(** What the action does: the interactions of [execute], and the report
    of its rejection. *)
Inductive ActionEvent :=
  | Executed (e : Event)
  | DisplayFailure (text : string) (projectName : string)
      (dbType : option string).

Record ActionRun := {
  act_emitted : list ActionEvent;
  act_world : World;
  act_outcome : Outcome unit
}.

(** Modelled from the spec: [displayError] of [../utils], called here with
    the object [{ projectName, dbType }]; as in [execute], it shows the
    text and the process ends inside it. *)
Definition displayFailure (text : string) (projectName : string)
    (dbType : option string) (done : list ActionEvent) (w : World)
  : ActionRun :=
  {| act_emitted := done ++ [DisplayFailure text projectName dbType];
     act_world := w;
     act_outcome := Exited |}.

(** [(projectName, options) => this.execute(projectName, options)
      .catch(e => displayError(e.stack || e,
                               { projectName, dbType: options.dbType }))].
    [stack] gives the text [e.stack || e] of a rejection; [options.dbType]
    is read when the handler runs. *)
Definition action (C : Collaborators) (stack : Failure → string)
    (projectName : string) (w : World) : ActionRun :=
  let r := execute C projectName w in
  match outcome r with
  | Thrown e =>
      displayFailure (stack e) projectName (opt_dbType (w_options (world r)))
        (Executed <$> emitted r) (world r)
  | Returned _ =>
      {| act_emitted := Executed <$> emitted r;
         act_world := world r;
         act_outcome := Returned tt |}
  | Exited =>
      {| act_emitted := Executed <$> emitted r;
         act_world := world r;
         act_outcome := Exited |}
  end.

(** ** Installations that fail

    The sample installation with one collaborator changed. *)
Module Faulty.


(** No database type has a JDBC descriptor. *)
Definition undescribed : Collaborators :=
  {| templates := templates Sample.installation;
     pathExists := pathExists Sample.installation;
     Drivers := Drivers Sample.installation;
     driverDependencies := driverDependencies Sample.installation;
     dbTypeDescription := λ _, None;
     requireDriver := requireDriver Sample.installation;
     promptAnswer := promptAnswer Sample.installation;
     npm := npm Sample.installation;
     command := command Sample.installation;
     entropy := entropy Sample.installation;
     latency := latency Sample.installation;
     chalk_green := chalk_green Sample.installation;
     chalk_red := chalk_red Sample.installation;
     dirname := dirname Sample.installation |}.

(** The driver lookup answers every database type with an empty list. *)
Definition unlisted : Collaborators :=
  {| templates := templates Sample.installation;
     pathExists := pathExists Sample.installation;
     Drivers := Drivers Sample.installation;
     driverDependencies := λ _, Some (Packages []);
     dbTypeDescription := dbTypeDescription Sample.installation;
     requireDriver := requireDriver Sample.installation;
     promptAnswer := promptAnswer Sample.installation;
     npm := npm Sample.installation;
     command := command Sample.installation;
     entropy := entropy Sample.installation;
     latency := latency Sample.installation;
     chalk_green := chalk_green Sample.installation;
     chalk_red := chalk_red Sample.installation;
     dirname := dirname Sample.installation |}.

End Faulty.

(** ** The definitions on small inputs *)

Example js_or_empty : js_or (Some "") "express" = "express".
Proof. reflexivity. Qed.

Example js_or_given : js_or (Some "serverless") "express" = "serverless".
Proof. reflexivity. Qed.

Example toString_hex_sample :
  toString_hex [Byte.x00; Byte.x0f; Byte.xa5; Byte.xff] = "000fa5ff".
Proof. reflexivity. Qed.

Example packages_to_install_one :
  packages_to_install (Some (OnePackage "@cubejs-backend/postgres-driver"))
  = ["@cubejs-backend/postgres-driver"].
Proof. reflexivity. Qed.

Example packages_to_install_bridge :
  packages_to_install (Some (OnePackage "@cubejs-backend/jdbc-driver"))
  = ["@cubejs-backend/jdbc-driver"; "node-java-maven"].
Proof. reflexivity. Qed.

Example packages_to_install_bridge_second :
  packages_to_install
    (Some (Packages ["@cubejs-backend/odd-driver";
                     "@cubejs-backend/jdbc-driver"]))
  = ["@cubejs-backend/odd-driver"; "@cubejs-backend/jdbc-driver"].
Proof. reflexivity. Qed.

Example sample_run_returns :
  outcome (execute Sample.installation "app" (start (Sample.fresh None)))
  = Returned tt.
Proof. reflexivity. Qed.

Example sample_run_writes :
  writes (emitted (execute Sample.installation "app"
                     (start (Sample.fresh (Some "postgres")))))
  ≡ₚ [(".env", "CUBEJS_API_SECRET=" +:+ toString_hex (replicate 64 Byte.xab));
      ("index.js", "// app")].
Proof. vm_compute. reflexivity. Qed.

(** ** The generated secret *)

Lemma hex_digit_is_hex (n : nat) : is_hex_char (hex_digit n) = true.
Proof. do 15 (destruct n as [|n]; [by vm_compute|]). by vm_compute. Qed.

Lemma length_randomBytes (src : nat → byte) (n : nat) :
  length (randomBytes src n) = n.
Proof. unfold randomBytes. by rewrite length_fmap, length_seq. Qed.

Lemma toString_hex_cons (b : byte) (bs : list byte) :
  toString_hex (b :: bs) =
  String (hex_digit (Byte.to_nat b / 16))
    (String (hex_digit (Byte.to_nat b mod 16)) (toString_hex bs)).
Proof. reflexivity. Qed.

Lemma length_toString_hex (bs : list byte) :
  String.length (toString_hex bs) = 2 * length bs.
Proof.
  induction bs as [|b bs IH]; [done|].
  rewrite toString_hex_cons. simpl. rewrite IH. lia.
Qed.

Lemma toString_hex_is_hex (bs : list byte) :
  Forall (λ c, is_hex_char c = true) (list_ascii_of_string (toString_hex bs)).
Proof.
  induction bs as [|b bs IH]; [constructor|].
  rewrite toString_hex_cons. simpl.
  repeat constructor; auto using hex_digit_is_hex.
Qed.

(** ** Runs of composed programs *)

#[local] Arguments String.append : simpl never.

Lemma run_bind {A B} (m : M A) (k : A → M B) (w : World) :
  (m ≫= k) w = bind m k w.
Proof. reflexivity. Qed.

Lemma emitted_bind {A B} (m : M A) (k : A → M B) (w : World) :
  emitted ((m ≫= k) w) =
  emitted (m w) ++
  match outcome (m w) with
  | Returned a => emitted (k a (world (m w)))
  | _ => []
  end.
Proof.
  rewrite run_bind. unfold bind.
  destruct (outcome (m w)); simpl; by rewrite ?app_nil_r.
Qed.

Lemma outcome_bind {A B} (m : M A) (k : A → M B) (w : World) :
  outcome ((m ≫= k) w) =
  match outcome (m w) with
  | Returned a => outcome (k a (world (m w)))
  | Exited => Exited
  | Thrown e => Thrown e
  end.
Proof. rewrite run_bind. unfold bind. by destruct (outcome (m w)). Qed.

Lemma world_bind {A B} (m : M A) (k : A → M B) (w : World) :
  world ((m ≫= k) w) =
  match outcome (m w) with
  | Returned a => world (k a (world (m w)))
  | _ => world (m w)
  end.
Proof. rewrite run_bind. unfold bind. by destruct (outcome (m w)). Qed.

Lemma run_ext {A} (r r' : Run A) :
  emitted r = emitted r' → world r = world r' → outcome r = outcome r' →
  r = r'.
Proof. destruct r, r'. simpl. by intros -> -> ->. Qed.

(** Runs a composed program one statement further. *)
Ltac step :=
  repeat (progress (rewrite ?emitted_bind, ?outcome_bind, ?world_bind; simpl)).

(** A composed program returns only if both parts return. *)
Lemma bind_returned {A B} (m : M A) (k : A → M B) (w : World) (b : B) :
  outcome ((m ≫= k) w) = Returned b →
  ∃ a, outcome (m w) = Returned a ∧
       outcome (k a (world (m w))) = Returned b ∧
       emitted ((m ≫= k) w) = emitted (m w) ++ emitted (k a (world (m w))) ∧
       world ((m ≫= k) w) = world (k a (world (m w))).
Proof.
  rewrite outcome_bind, emitted_bind, world_bind.
  destruct (outcome (m w)) as [a| |e]; [|done..].
  intros Hk. by exists a.
Qed.

(** *** Rules of the program logic *)

Section Rules.
Context {A B : Type}.
Implicit Types (pre : World → Prop) (ev : Event → Prop).

Lemma spec_bind pre (m : M A) (k : A → M B) ev
    (mid : A → World → Prop) (post : B → World → Prop) :
  spec pre m ev mid →
  (∀ a, spec (mid a) (k a) ev post) →
  spec pre (m ≫= k) ev post.
Proof.
  intros Hm Hk w Hw. destruct (Hm w Hw) as [Hev Hmid].
  rewrite emitted_bind, outcome_bind, world_bind.
  destruct (outcome (m w)) as [a| |e]; try by rewrite app_nil_r.
  destruct (Hk a (world (m w)) (Hmid a eq_refl)) as [Hev' Hpost].
  split; [by apply Forall_app|done].
Qed.

Lemma spec_ret pre (a : A) ev (post : A → World → Prop) :
  (∀ w, pre w → post a w) → spec pre (mret a) ev post.
Proof. intros H w Hw. split; [constructor|]. intros a' [= <-]. by apply H. Qed.

Lemma preserves_bind (R : World → World → Prop) (m : M A) (k : A → M B) :
  Transitive R →
  preserves R m → (∀ a, preserves R (k a)) → preserves R (m ≫= k).
Proof.
  intros HR Hm Hk w. rewrite world_bind.
  destruct (outcome (m w)) as [a| |e]; [|apply Hm..].
  trans (world (m w)); [apply Hm|apply Hk].
Qed.

Lemma same_run_bind (m m' : M A) (k k' : A → M B) (w w' : World) :
  same_run (m w) (m' w') →
  (∀ a v v', same_but_template v v' → same_run (k a v) (k' a v')) →
  same_run ((m ≫= k) w) ((m' ≫= k') w').
Proof.
  intros (Hev & Hout & Hw) Hk. unfold same_run.
  rewrite !emitted_bind, !outcome_bind, !world_bind, <-Hout, Hev.
  destruct (outcome (m w)) as [a| |e]; [|by rewrite ?app_nil_r..].
  destruct (Hk a _ _ Hw) as (Hev' & Hout' & Hw').
  by rewrite Hev'.
Qed.

End Rules.

Lemma spec_emit (pre : World → Prop) (e : Event) (ev : Event → Prop) :
  ev e → spec pre (emit e) ev (λ _, pre).
Proof. intros He w Hw. split; [by repeat constructor|]. by intros []. Qed.

(** ** The stages, run *)

Ltac unfold_helpers :=
  unfold displayError, event, logStage, writePackageJson, npmInstall,
    executeCommand, subprocess, readJson, chdir, prompt, set_dbType,
    requireFromPackage, emit, throw, exit, get_options, modify,
    mbind, M_bind, mret, M_ret, bind, ret.

Section Stages.
Variable C : Collaborators.
Implicit Types (w : World) (options : Options) (o : CreateOptions).
Implicit Types (projectName template : string).

Lemma check_run projectName template o w :
  check C projectName template o w =
  if pathExists C projectName then
    {| emitted := [Track "Create App" (CreateAppProps o);
                   DisplayError (directory_exists C projectName) o];
       world := w; outcome := Exited |}
  else match templates_at C template with
       | None =>
           {| emitted := [Track "Create App" (CreateAppProps o);
                          DisplayError (unknown_template C template) o];
              world := w; outcome := Exited |}
       | Some _ =>
           {| emitted := [Track "Create App" (CreateAppProps o)];
              world := w; outcome := Returned tt |}
       end.
Proof.
  unfold check. unfold_helpers.
  destruct (pathExists C projectName); simpl; [done|].
  by destruct (templates_at C template).
Qed.

Lemma chdir_run dir w :
  chdir dir w =
  if String.eqb dir "" then
    {| emitted := [Chdir dir]; world := w; outcome := Thrown NoSuchDirectory |}
  else
    {| emitted := [Chdir dir]; world := entered dir w;
       outcome := Returned tt |}.
Proof. unfold chdir. unfold_helpers. simpl. by destruct (String.eqb dir ""). Qed.

Lemma scaffold_run projectName template w :
  scaffold C projectName template w =
  if String.eqb projectName "" then
    {| emitted := [EnsureDir projectName; Chdir projectName];
       world := w; outcome := Thrown NoSuchDirectory |}
  else
  match templates_at C template with
  | None =>
      {| emitted := [EnsureDir projectName; Chdir projectName;
                     LogStage "Creating project structure"];
         world := entered projectName w;
         outcome := Thrown TypeError |}
  | Some templateConfig =>
      let json := initial_manifest projectName templateConfig in
      let done :=
        [EnsureDir projectName; Chdir projectName;
         LogStage "Creating project structure";
         WritePackageJson json;
         LogStage "Installing server dependencies";
         NpmInstall ["@cubejs-backend/server"]] in
      match npm C ["@cubejs-backend/server"] (Some json) with
      | CommandFailed =>
          {| emitted := done;
             world := with_packageJson (Some json) (entered projectName w);
             outcome := Thrown InstallFailed |}
      | CommandDone manifest =>
          {| emitted := done;
             world := with_packageJson manifest (entered projectName w);
             outcome := Returned templateConfig |}
      end
  end.
Proof.
  unfold scaffold, chdir. apply run_ext; step.
  all: destruct (String.eqb projectName ""); simpl; [done|].
  all: step.
  all: destruct (templates_at C template) as [templateConfig|]; simpl;
    [|done].
  all: step; unfold subprocess; simpl.
  all: by destruct (npm C _ _).
Qed.

Lemma select_database_run w :
  select_database C w =
  if truthy (opt_dbType (w_options w)) then
    {| emitted := []; world := w; outcome := Returned tt |}
  else
    {| emitted := [Prompt (keys (Drivers C))];
       world := with_dbType (Some (promptAnswer C (keys (Drivers C)))) w;
       outcome := Returned tt |}.
Proof.
  unfold select_database. unfold_helpers. simpl.
  by destruct (truthy _).
Qed.

Lemma install_drivers_run o w :
  install_drivers C o w =
  let dbType := opt_dbType (w_options w) in
  let found := driverDependencies C dbType in
  if truthy_dependency found then
    let done :=
      [LogStage "Installing DB driver dependencies";
       DriverDependenciesCall dbType;
       NpmInstall (packages_to_install found)] in
    match npm C (packages_to_install found) (w_packageJson w) with
    | CommandFailed =>
        {| emitted := done; world := w; outcome := Thrown InstallFailed |}
    | CommandDone manifest =>
        {| emitted := done;
           world := with_packageJson manifest w;
           outcome := Returned (packages_to_install found) |}
    end
  else
    {| emitted := [LogStage "Installing DB driver dependencies";
                   DriverDependenciesCall dbType;
                   DisplayError (unsupported_db_type C (w_options w)) o];
       world := w; outcome := Exited |}.
Proof.
  unfold install_drivers. unfold_helpers. simpl.
  destruct (truthy_dependency _); simpl; [|done].
  by destruct (npm C _ _).
Qed.

Lemma jdbc_setup_run o driverDependencies w :
  jdbc_setup C o driverDependencies w =
  if first_is_jdbc driverDependencies then
    let dbType := opt_dbType (w_options w) in
    match dbTypeDescription C dbType with
    | None =>
        {| emitted := [LogStage "Installing JDBC dependencies";
                       DbTypeDescriptionCall dbType;
                       DisplayError (unsupported_db_type C (w_options w)) o];
           world := w; outcome := Exited |}
    | Some description =>
        match w_packageJson w with
        | None =>
            {| emitted := [LogStage "Installing JDBC dependencies";
                           DbTypeDescriptionCall dbType];
               world := w; outcome := Thrown FileNotFound |}
        | Some newPackageJson =>
            let json := jdbc_manifest description newPackageJson in
            let done :=
              [LogStage "Installing JDBC dependencies";
               DbTypeDescriptionCall dbType;
               WritePackageJson json;
               ExecuteCommand "npm" ["install"]] in
            match command C "npm" ["install"] (Some json) with
            | CommandFailed =>
                {| emitted := done;
                   world := with_packageJson (Some json) w;
                   outcome := Thrown InstallFailed |}
            | CommandDone manifest =>
                {| emitted := done;
                   world := with_packageJson manifest w;
                   outcome := Returned tt |}
            end
        end
    end
  else {| emitted := []; world := w; outcome := Returned tt |}.
Proof.
  unfold jdbc_setup. destruct (first_is_jdbc _); [|done].
  unfold_helpers. simpl.
  destruct (dbTypeDescription C _) as [description|]; simpl; [|done].
  destruct (w_packageJson w) as [newPackageJson|] eqn:Hjson; simpl; [|done].
  destruct (command C _ _ _); simpl; [done|].
  unfold with_packageJson. simpl. done.
Qed.

Lemma for_each_ensure_file_dir_run fileNames w :
  for_each (ensure_file_dir C) fileNames w =
  {| emitted := EnsureDir ∘ dirname C <$> fileNames;
     world := w; outcome := Returned tt |}.
Proof.
  induction fileNames as [|fileName fileNames IH]; [done|].
  simpl. rewrite run_bind. unfold bind, ensure_file_dir at 1. unfold_helpers.
  simpl. by rewrite IH.
Qed.

Lemma for_each_write_file_run env files w :
  for_each (write_file env) files w =
  {| emitted := files ≫= file_events env;
     world := w; outcome := Returned tt |}.
Proof.
  induction files as [|file files IH]; [done|].
  simpl. rewrite run_bind. unfold bind, write_file at 1. unfold_helpers.
  simpl. by rewrite IH.
Qed.

Lemma write_template_files_run env files w :
  write_template_files C env files w =
  {| emitted := files_events C env files;
     world := w; outcome := Returned tt |}.
Proof.
  unfold write_template_files, files_events.
  rewrite run_bind. unfold bind.
  by rewrite for_each_ensure_file_dir_run, for_each_write_file_run.
Qed.

Lemma write_files_run projectName templateConfig driverDependencies w :
  write_files C projectName templateConfig driverDependencies w =
  match requireDriver C (head driverDependencies) with
  | None =>
      {| emitted := [LogStage "Writing files from template"];
         world := w; outcome := Thrown ModuleNotFound |}
  | Some driverClass =>
      match files_of templateConfig with
      | None =>
          {| emitted := [LogStage "Writing files from template"];
             world := w; outcome := Thrown TypeError |}
      | Some files =>
          {| emitted :=
               LogStage "Writing files from template" ::
               files_events C
                 (make_env C projectName (w_options w) driverClass) files;
             world := w; outcome := Returned tt |}
      end
  end.
Proof.
  unfold write_files. apply run_ext; step.
  all: unfold requireFromPackage.
  all: destruct (requireDriver C _) as [driverClass|]; simpl; [|done].
  all: step.
  all: destruct (files_of templateConfig) as [files|]; simpl; [|done].
  all: by rewrite write_template_files_run.
Qed.

Lemma report_success_run projectName w :
  report_success C projectName w =
  {| emitted :=
       [Track "Create App Success"
          (SuccessProps projectName (opt_dbType (w_options w)));
        LogStage (chalk_green C projectName +:+ " app has been created 🎉");
        ConsoleLog "";
        ConsoleLog "📊 Next step: run dev server";
        ConsoleLog "";
        ConsoleLog ("     $ cd " +:+ projectName);
        ConsoleLog "     $ npm run dev";
        ConsoleLog ""];
     world := w; outcome := Returned tt |}.
Proof. reflexivity. Qed.

End Stages.

#[local] Opaque check scaffold select_database install_drivers jdbc_setup
  write_files report_success.

(** *** The property read of line 52 *)

Lemma templates_at_registered (C : Collaborators) (template : string)
    (templateConfig : TemplateConfig) :
  templates_at C template = Some (Registered templateConfig) ↔
  templates C !! template = Some templateConfig.
Proof.
  unfold templates_at. destruct (templates C !! template) as [tc|].
  - split; by intros [= ->].
  - by case_bool_decide.
Qed.

Lemma templates_at_inherited (C : Collaborators) (template : string) :
  templates_at C template = Some Inherited ↔
  templates C !! template = None ∧ template ∈ object_prototype.
Proof.
  unfold templates_at. destruct (templates C !! template) as [tc|].
  - split; [done|by intros [? _]].
  - case_bool_decide; [by split|]. split; [done|by intros [_ ?]].
Qed.

Lemma templates_at_undefined (C : Collaborators) (template : string) :
  templates_at C template = None ↔
  templates C !! template = None ∧ template ∉ object_prototype.
Proof.
  unfold templates_at. destruct (templates C !! template) as [tc|].
  - split; [done|by intros [? _]].
  - case_bool_decide; [|by split]. split; [done|by intros [_ ?]].
Qed.


(** ** Lines 39-85 as a whole *)

Section Prepare.
Variable C : Collaborators.
Implicit Types (w : World) (options : Options) (o : CreateOptions).
Implicit Types (projectName template : string).

Lemma prepare_run projectName w :
  prepare C projectName w =
  let o := createAppOptions_of projectName (w_options w) in
  if pathExists C projectName then
    {| emitted := [Track "Create App" (CreateAppProps o);
                   DisplayError (directory_exists C projectName) o];
       world := w; outcome := Exited |}
  else match templates_at C (template_of (w_options w)) with
    | None =>
        {| emitted := [Track "Create App" (CreateAppProps o);
                       DisplayError
                         (unknown_template C (template_of (w_options w))) o];
           world := w; outcome := Exited |}
    | Some templateConfig =>
        if String.eqb projectName "" then
          {| emitted := [Track "Create App" (CreateAppProps o);
                         EnsureDir projectName; Chdir projectName];
             world := w; outcome := Thrown NoSuchDirectory |}
        else
        let json := initial_manifest projectName templateConfig in
        match npm C ["@cubejs-backend/server"] (Some json) with
        | CommandFailed =>
            {| emitted := prepared projectName o templateConfig;
               world := with_packageJson (Some json) (entered projectName w);
               outcome := Thrown InstallFailed |}
        | CommandDone manifest =>
            let w' := with_packageJson manifest (entered projectName w) in
            if truthy (opt_dbType (w_options w)) then
              {| emitted := prepared projectName o templateConfig;
                 world := w';
                 outcome := Returned (o, templateConfig) |}
            else
              {| emitted := prepared projectName o templateConfig
                            ++ [Prompt (keys (Drivers C))];
                 world :=
                   with_dbType (Some (promptAnswer C (keys (Drivers C)))) w';
                 outcome := Returned (o, templateConfig) |}
        end
    end.
Proof.
  unfold prepare. apply run_ext; step.
  all: rewrite check_run.
  all: destruct (pathExists C projectName); simpl; [done|].
  all: destruct (templates_at C _) as [templateConfig|] eqn:Htc; simpl;
    [|done].
  all: step; rewrite scaffold_run, Htc; simpl.
  all: destruct (String.eqb projectName ""); simpl; [done|].
  all: destruct (npm C _ _) as [|manifest]; simpl; [done|].
  all: step; rewrite select_database_run.
  all: by destruct (truthy _).
Qed.

(** The run reaches the driver installation exactly when the name is free
    and not empty, the template is found and the server package
    installs. *)
Lemma prepare_returns projectName w o templateConfig :
  outcome (prepare C projectName w) = Returned (o, templateConfig) ↔
  pathExists C projectName = false ∧
  templates_at C (template_of (w_options w)) = Some templateConfig ∧
  o = createAppOptions_of projectName (w_options w) ∧
  npm C ["@cubejs-backend/server"]
    (Some (initial_manifest projectName templateConfig)) ≠ CommandFailed ∧
  projectName ≠ "".
Proof.
  rewrite prepare_run. simpl.
  destruct (pathExists C projectName); [split; [done|by intros [? _]]|].
  destruct (templates_at C _) as [tc|];
    [|split; [done|by intros (_ & ? & _)]].
  destruct (String.eqb projectName "") eqn:Hname.
  { apply String.eqb_eq in Hname. split; [done|]. by intros (_ & _ & _ & _ & ?). }
  apply String.eqb_neq in Hname.
  destruct (npm C _ (Some (initial_manifest projectName tc))) eqn:Hnpm.
  { split; [done|]. intros (_ & [= <-] & _ & Hn & _). by rewrite Hnpm in Hn. }
  destruct (truthy _); simpl.
  all: split; [intros [= <- <-]; by rewrite Hnpm|].
  all: intros (_ & [= <-] & -> & _); done.
Qed.

(** After the selection the [options] object holds the chosen type. *)
Lemma prepare_options projectName options x :
  outcome (prepare C projectName (start options)) = Returned x →
  w_options (world (prepare C projectName (start options))) =
  {| opt_template := opt_template options;
     opt_dbType := chosen_dbType C options |}.
Proof.
  rewrite prepare_run. unfold chosen_dbType. simpl.
  destruct (pathExists C projectName); [done|].
  destruct (templates_at C _); [|done].
  destruct (String.eqb projectName ""); [done|].
  destruct (npm C _ _); [done|].
  destruct (truthy _) eqn:Hk; simpl; [|done].
  by destruct options.
Qed.

Lemma execute_run projectName w :
  execute C projectName w =
  bind (prepare C projectName)
    (λ x, build C projectName x.1 x.2) w.
Proof.
  unfold execute. rewrite run_bind. unfold bind.
  by destruct (outcome (prepare C projectName w)) as [[o tc]| |].
Qed.

Lemma emitted_execute projectName w :
  emitted (execute C projectName w) =
  emitted (prepare C projectName w) ++
  match outcome (prepare C projectName w) with
  | Returned (o, templateConfig) =>
      emitted (build C projectName o templateConfig
                 (world (prepare C projectName w)))
  | _ => []
  end.
Proof.
  rewrite execute_run, <-run_bind, emitted_bind.
  by destruct (outcome _) as [[o tc]| |].
Qed.

Lemma outcome_execute projectName w :
  outcome (execute C projectName w) =
  match outcome (prepare C projectName w) with
  | Returned (o, templateConfig) =>
      outcome (build C projectName o templateConfig
                 (world (prepare C projectName w)))
  | Exited => Exited
  | Thrown e => Thrown e
  end.
Proof.
  rewrite execute_run, <-run_bind, outcome_bind.
  by destruct (outcome _) as [[o tc]| |].
Qed.

Lemma world_execute projectName w :
  world (execute C projectName w) =
  match outcome (prepare C projectName w) with
  | Returned (o, templateConfig) =>
      world (build C projectName o templateConfig
               (world (prepare C projectName w)))
  | _ => world (prepare C projectName w)
  end.
Proof.
  rewrite execute_run, <-run_bind, world_bind.
  by destruct (outcome _) as [[o tc]| |].
Qed.

End Prepare.

(** ** Lines 87-153, stage by stage *)

#[local] Instance keeps_options_trans : Transitive keeps_options.
Proof. unfold keeps_options. intros w1 w2 w3 H1 H2. congruence. Qed.

Section Build.
Variable C : Collaborators.
Implicit Types (w : World) (o : CreateOptions) (k : option string).
Implicit Types (projectName : string) (templateConfig : TemplateValue).

#[local] Abbreviation holds k := (λ w, opt_dbType (w_options w) = k).

Lemma npmInstall_spec (pre : World → Prop) packages (ev : Event → Prop) :
  ev (NpmInstall packages) →
  (∀ w manifest, pre w → pre (with_packageJson manifest w)) →
  spec pre (npmInstall C packages) ev (λ _, pre).
Proof.
  intros Hev Hpre w Hw. unfold npmInstall, subprocess. step.
  destruct (npm C _ _); simpl; (split; [by repeat constructor|]); [done|].
  intros _ _. by apply Hpre.
Qed.

Lemma npmInstall_keeps packages : preserves keeps_options (npmInstall C packages).
Proof.
  intros w. unfold npmInstall, subprocess. step.
  by destruct (npm C _ _).
Qed.

Lemma install_drivers_spec o k :
  spec (holds k) (install_drivers C o) (drivers_event C o k) (λ _, holds k).
Proof.
  intros w Hk. rewrite install_drivers_run. unfold unsupported_db_type.
  simpl. rewrite Hk.
  destruct (truthy_dependency _); [destruct (npm C _ _)|]; simpl.
  all: split; [repeat constructor|done].
Qed.

Lemma jdbc_setup_spec o k driverDependencies :
  spec (holds k) (jdbc_setup C o driverDependencies) (drivers_event C o k)
    (λ _, holds k).
Proof.
  intros w Hk. rewrite jdbc_setup_run. unfold unsupported_db_type.
  simpl. rewrite Hk.
  destruct (first_is_jdbc _); [|by split; [constructor|]].
  destruct (dbTypeDescription C _); [|by split; [repeat constructor|]].
  destruct (w_packageJson w); [|by split; [repeat constructor|]].
  destruct (command C _ _ _); simpl.
  all: split; [repeat constructor|done].
Qed.

Lemma write_files_spec projectName templateConfig driverDependencies k :
  spec (holds k) (write_files C projectName templateConfig driverDependencies)
    (finish_event projectName k) (λ _, holds k).
Proof.
  intros w Hk. rewrite write_files_run.
  destruct (requireDriver C _) as [driverClass|]; simpl;
    [|by split; [repeat constructor|]].
  destruct (files_of templateConfig) as [files|]; simpl;
    [|by split; [repeat constructor|]].
  split; [|done]. constructor; [constructor|].
  unfold files_events. apply Forall_app. split.
  - apply Forall_fmap, Forall_forall. intros fileName _. constructor.
  - apply Forall_bind, Forall_forall. intros file Hfile.
    unfold file_events. simpl. by repeat constructor.
Qed.

Lemma install_template_dependencies_events templateConfig
    (pre : World → Prop) (ev : Event → Prop) :
  (∀ message, ev (LogStage message)) →
  (∀ packages, ev (NpmInstall packages)) →
  (∀ w manifest, pre w → pre (with_packageJson manifest w)) →
  spec pre (install_template_dependencies C templateConfig) ev (λ _, pre).
Proof.
  intros Hstage Hinstall Hpre. unfold install_template_dependencies.
  apply spec_bind with (mid := λ _, pre); [|intros []].
  all: case_match; [|by apply spec_ret].
  all: apply spec_bind with (mid := λ _, pre);
    [by apply spec_emit|intros []].
  all: by apply npmInstall_spec.
Qed.

Lemma install_template_dependencies_spec projectName templateConfig k :
  spec (holds k) (install_template_dependencies C templateConfig)
    (finish_event projectName k) (λ _, holds k).
Proof.
  apply install_template_dependencies_events; [constructor..|done].
Qed.

Lemma report_success_spec projectName k :
  spec (holds k) (report_success C projectName) (finish_event projectName k)
    (λ _, holds k).
Proof.
  intros w Hk. rewrite report_success_run. simpl. rewrite Hk.
  split; [repeat constructor|done].
Qed.

Lemma finish_spec projectName templateConfig driverDependencies k :
  spec (holds k) (finish C projectName templateConfig driverDependencies)
    (finish_event projectName k) (λ _, holds k).
Proof.
  unfold finish.
  eapply spec_bind; [apply write_files_spec|intros []].
  eapply spec_bind; [apply install_template_dependencies_spec|intros []].
  apply report_success_spec.
Qed.

(** Every interaction of lines 87-153 is one of the two alphabets. *)
Lemma build_spec projectName o templateConfig k :
  spec (holds k) (build C projectName o templateConfig)
    (λ e, drivers_event C o k e ∨ finish_event projectName k e) (λ _, holds k).
Proof.
  assert (∀ A (m : M A),
    spec (holds k) m (drivers_event C o k) (λ _, holds k) →
    spec (holds k) m (λ e, drivers_event C o k e ∨ finish_event projectName k e)
      (λ _, holds k)) as Hl.
  { intros A m Hm w Hw. destruct (Hm w Hw) as [Hev Hpost].
    split; [|done]. eapply Forall_impl; [done|]. by left. }
  unfold build.
  eapply spec_bind; [apply Hl, install_drivers_spec|intros deps].
  eapply spec_bind; [apply Hl, jdbc_setup_spec|intros []].
  intros w Hw. destruct (finish_spec projectName templateConfig deps k w Hw)
    as [Hev Hpost].
  split; [|done]. eapply Forall_impl; [done|]. by right.
Qed.

(** *** The [options] object after the selection *)

Lemma install_drivers_keeps o : preserves keeps_options (install_drivers C o).
Proof.
  intros w. rewrite install_drivers_run. simpl.
  destruct (truthy_dependency _); [destruct (npm C _ _)|]; done.
Qed.

Lemma jdbc_setup_keeps o driverDependencies :
  preserves keeps_options (jdbc_setup C o driverDependencies).
Proof.
  intros w. rewrite jdbc_setup_run. simpl.
  repeat case_match; done.
Qed.

Lemma finish_keeps projectName templateConfig driverDependencies :
  preserves keeps_options
    (finish C projectName templateConfig driverDependencies).
Proof.
  unfold finish. apply preserves_bind; [apply _| |intros []].
  { intros w. rewrite write_files_run. by repeat case_match. }
  apply preserves_bind; [apply _| |intros []].
  { unfold install_template_dependencies.
    apply preserves_bind; [apply _| |intros []].
    all: case_match; [|done].
    all: apply preserves_bind; [apply _|done|intros []].
    all: apply npmInstall_keeps. }
  intros w. by rewrite report_success_run.
Qed.

Lemma build_keeps projectName o templateConfig :
  preserves keeps_options (build C projectName o templateConfig).
Proof.
  unfold build. apply preserves_bind; [apply _| |intros deps].
  { apply install_drivers_keeps. }
  apply preserves_bind; [apply _| |intros []].
  { apply jdbc_setup_keeps. }
  apply finish_keeps.
Qed.

End Build.

#[local] Opaque prepare.

(** ** The error paths *)

(** C1. When a file or directory named [projectName] exists, [execute]
    reports the directory conflict and does nothing more: the run is the
    telemetry of the invocation followed by the report, the process exits
    there and the state is as it was. No directory is created, nothing is
    installed, no manifest and no file of the template is written. *)
Theorem existing_directory_stops_the_run (C : Collaborators)
    (projectName : string) (options : Options) :
  pathExists C projectName = true →
  let r := execute C projectName (start options) in
  let o := createAppOptions_of projectName options in
  emitted r = [Track "Create App" (CreateAppProps o);
               DisplayError (directory_exists C projectName) o] ∧
  outcome r = Exited ∧
  world r = start options ∧
  Forall (λ e, ¬ creates_directory e ∧ ¬ writes_manifest_or_installs e ∧
               ¬ touches_template_file e) (emitted r).
Proof.
  intros Hexists r o.
  assert (prepare C projectName (start options) =
          {| emitted := [Track "Create App" (CreateAppProps o);
                         DisplayError (directory_exists C projectName) o];
             world := start options; outcome := Exited |}) as Hprepare.
  { rewrite prepare_run. simpl. by rewrite Hexists. }
  subst r. rewrite emitted_execute, outcome_execute, world_execute, Hprepare.
  simpl. repeat split; try done.
  repeat constructor; simpl; tauto.
Qed.

Lemma existing_directory_stops_the_run_witness :
  outcome (execute Sample.installation "taken" (start (Sample.fresh None)))
  = Exited.
Proof.
  apply (existing_directory_stops_the_run Sample.installation "taken"
           (Sample.fresh None)).
  reflexivity.
Defined.

(** C2, as the code has it. When the property read of line 52 finds
    nothing under the template key (the key is no entry of the registry
    and no name the registry inherits), no directory is created and the
    process exits; if moreover nothing named [projectName] exists, the run
    is the telemetry of the invocation followed by the unknown-template
    report. *)
Theorem unknown_template_creates_no_directory (C : Collaborators)
    (projectName : string) (options : Options) :
  templates C !! template_of options = None →
  template_of options ∉ object_prototype →
  let r := execute C projectName (start options) in
  let o := createAppOptions_of projectName options in
  Forall (λ e, ¬ creates_directory e) (emitted r) ∧
  outcome r = Exited ∧
  (pathExists C projectName = false →
   emitted r = [Track "Create App" (CreateAppProps o);
                DisplayError (unknown_template C (template_of options)) o]).
Proof.
  intros Hunknown Hinherited r o. subst r.
  assert (templates_at C (template_of options) = None) as Hundefined
    by by apply templates_at_undefined.
  rewrite emitted_execute, outcome_execute, prepare_run. simpl.
  rewrite Hundefined.
  destruct (pathExists C projectName); simpl.
  all: repeat split; try done.
  all: repeat constructor; simpl; tauto.
Qed.

Lemma unknown_template_creates_no_directory_witness :
  emitted (execute Sample.installation "app"
             (start {| opt_template := Some "nope"; opt_dbType := None |}))
  = [Track "Create App" (CreateAppProps
       {| co_projectName := "app"; co_dbType := None; co_template := "nope" |});
     DisplayError "Unknown template nope"
       {| co_projectName := "app"; co_dbType := None; co_template := "nope" |}].
Proof.
  apply (unknown_template_creates_no_directory Sample.installation "app"
           {| opt_template := Some "nope"; opt_dbType := None |});
    [reflexivity| |reflexivity].
  apply (bool_decide_eq_false_1 ("nope" ∈ object_prototype)).
  vm_compute. reflexivity.
Defined.

(** C2 does not hold as stated: with a name that is taken and a template
    that is not registered, only the directory conflict is reported. *)
Lemma unknown_template_unreported_when_directory_exists :
  let options := {| opt_template := Some "nope"; opt_dbType := None |} in
  templates Sample.installation !! template_of options = None ∧
  ¬ reports_unknown_template Sample.installation "taken" options.
Proof.
  split; [reflexivity|].
  intros [o Hin]. vm_compute in Hin.
  apply list_elem_of_In in Hin. simpl in Hin.
  destruct Hin as [Hin|[Hin|[]]]; discriminate Hin.
Qed.

(** C3. When the run has come to the driver installation and the lookup
    for the chosen database type has no result, [execute] reports the
    unsupported database type and the process exits there: the report is
    the last interaction of the run, so no driver is installed, no JDBC
    step, no rendering, no template package and no report of success
    follow. *)
Theorem unsupported_database_type_is_terminal (C : Collaborators)
    (projectName : string) (options : Options)
    (o : CreateOptions) (templateConfig : TemplateValue) :
  let reached := prepare C projectName (start options) in
  let dbType := chosen_dbType C options in
  outcome reached = Returned (o, templateConfig) →
  truthy_dependency (driverDependencies C dbType) = false →
  let r := execute C projectName (start options) in
  emitted r =
    emitted reached ++
    [LogStage "Installing DB driver dependencies";
     DriverDependenciesCall dbType;
     DisplayError ("Unsupported db type: " +:+ chalk_green C (js_string dbType))
       (createAppOptions_of projectName options)] ∧
  outcome r = Exited.
Proof.
  intros reached dbType Hreached Hfound r. subst r reached.
  pose proof (prepare_options C _ _ _ Hreached) as Hoptions.
  apply prepare_returns in Hreached as Ho. destruct Ho as (_ & _ & -> & _).
  rewrite emitted_execute, outcome_execute, Hreached.
  unfold build. step. rewrite install_drivers_run. simpl.
  unfold unsupported_db_type. rewrite Hoptions. simpl. fold dbType.
  by rewrite Hfound.
Qed.

Lemma unsupported_database_type_is_terminal_witness :
  outcome (execute Sample.installation "app"
             (start (Sample.fresh (Some "oracle")))) = Exited.
Proof.
  eapply (unsupported_database_type_is_terminal Sample.installation "app"
            (Sample.fresh (Some "oracle"))); reflexivity.
Defined.

(** ** The whole run *)

Lemma prepare_events (C : Collaborators) (projectName : string) (w : World) :
  Forall (prepare_event C projectName
            (createAppOptions_of projectName (w_options w)))
    (emitted (prepare C projectName w)).
Proof.
  rewrite prepare_run. simpl. unfold prepared.
  repeat case_match; simpl; repeat constructor.
Qed.

(** Every interaction of an invocation belongs to one of the three
    alphabets, with the record built at the start and the database type
    chosen in lines 75-85. *)
Lemma execute_events (C : Collaborators) (projectName : string)
    (options : Options) :
  let o := createAppOptions_of projectName options in
  let k := chosen_dbType C options in
  Forall (λ e, prepare_event C projectName o e ∨ drivers_event C o k e ∨
               finish_event projectName k e)
    (emitted (execute C projectName (start options))).
Proof.
  intros o k. rewrite emitted_execute. apply Forall_app. split.
  { eapply Forall_impl; [apply prepare_events|]. by left. }
  destruct (outcome (prepare C projectName (start options)))
    as [[o' tc]| |] eqn:Hreached; [|constructor..].
  pose proof (prepare_options C _ _ _ Hreached) as Hoptions.
  apply prepare_returns in Hreached as (_ & _ & -> & _).
  eapply Forall_impl.
  - apply (build_spec C projectName _ tc k). by rewrite Hoptions.
  - simpl. tauto.
Qed.

Lemma prompts_nil (l : list Event) :
  Forall (λ e, ¬ asks e) l → prompts l = [].
Proof.
  induction 1 as [|e l He _ IH]; [done|].
  destruct e; simpl in He; try exact IH. tauto.
Qed.

Lemma build_asks_nothing (C : Collaborators) (projectName : string)
    (o : CreateOptions) (templateConfig : TemplateValue) (w : World) :
  prompts (emitted (build C projectName o templateConfig w)) = [].
Proof.
  apply prompts_nil. eapply Forall_impl.
  - by apply (build_spec C projectName o templateConfig
                (opt_dbType (w_options w))).
  - intros e [[]|[]]; simpl; tauto.
Qed.

(** ** The choice of the database type *)

(** C4 does not hold as stated: a [dbType] that is supplied but empty is
    prompted for. *)
Lemma empty_dbType_is_prompted_for :
  let options := {| opt_template := None; opt_dbType := Some "" |} in
  opt_dbType options ≠ None ∧
  prompts (emitted (execute Sample.installation "app" (start options))) ≠ [].
Proof. split; [done|]. vm_compute. discriminate. Qed.

(** C4, as the code has it. With a [dbType] that is supplied and not
    empty no prompt is shown. With a [dbType] that is absent or empty, a
    run that comes to the selection shows exactly one prompt, whose
    choices are the keys of the driver registry, and takes the answer as
    the database type. In every run at most one prompt is shown, and the
    driver lookup, the JDBC descriptor lookup, the environment of the
    renderers and the report of success all take the chosen type. *)
Theorem database_type_is_chosen_once (C : Collaborators)
    (projectName : string) (options : Options) :
  let r := execute C projectName (start options) in
  let choices := keys (Drivers C) in
  (truthy (opt_dbType options) = true →
   prompts (emitted r) = [] ∧ chosen_dbType C options = opt_dbType options) ∧
  (truthy (opt_dbType options) = false →
   (∀ o templateConfig,
      outcome (prepare C projectName (start options))
        = Returned (o, templateConfig) →
      prompts (emitted r) = [choices]) ∧
   chosen_dbType C options = Some (promptAnswer C choices)) ∧
  list_to_set choices = dom (Drivers C) ∧
  length (prompts (emitted r)) ≤ 1 ∧
  Forall (uses_dbType (chosen_dbType C options)) (emitted r).
Proof.
  intros r choices. subst r.
  assert (prompts (emitted (execute C projectName (start options))) =
          prompts (emitted (prepare C projectName (start options)))) as ->.
  { rewrite emitted_execute. unfold prompts at 1. rewrite omap_app.
    fold (prompts (emitted (prepare C projectName (start options)))).
    destruct (outcome _) as [[o tc]| |]; rewrite ?app_nil_r; [|done..].
    fold (prompts (emitted (build C projectName o tc
      (world (prepare C projectName (start options)))))).
    by rewrite build_asks_nothing, app_nil_r. }
  rewrite prepare_run. unfold chosen_dbType. simpl.
  split; [|split; [|split; [|split]]].
  - intros ->. split; [|done]. by repeat case_match.
  - intros Hk. rewrite Hk. split; [|done].
    intros o tc. repeat case_match; try done.
  - unfold choices, keys. apply leibniz_equiv. symmetry. apply dom_alt.
  - repeat case_match; simpl; lia.
  - eapply Forall_impl; [apply execute_events|].
    intros e [[]|[[]|[]]]; simpl; auto.
Qed.

Lemma database_type_is_chosen_once_witness :
  prompts (emitted (execute Sample.installation "app"
                      (start (Sample.fresh (Some "postgres"))))) = [] ∧
  prompts (emitted (execute Sample.installation "app"
                      (start (Sample.fresh None))))
  = [keys (Drivers Sample.installation)].
Proof.
  split.
  - apply (database_type_is_chosen_once Sample.installation "app"
             (Sample.fresh (Some "postgres"))).
    reflexivity.
  - eapply (database_type_is_chosen_once Sample.installation "app"
              (Sample.fresh None)); reflexivity.
Defined.

(** ** The manifest written first *)

(** In every run, a manifest that is written before anything is installed
    or any other manifest is written is the object of lines 65-70 for the
    value read at [templates[template]]. *)
Lemma first_manifest_written (C : Collaborators)
    (projectName : string) (options : Options)
    (before after : list Event) (json : PackageJson) :
  emitted (execute C projectName (start options))
    = before ++ WritePackageJson json :: after →
  Forall (λ e, ¬ writes_manifest_or_installs e) before →
  ∃ templateConfig,
    templates_at C (template_of options) = Some templateConfig ∧
    json = initial_manifest projectName templateConfig.
Proof.
  rewrite emitted_execute, prepare_run. simpl.
  destruct (pathExists C projectName); simpl.
  { intros Hrun _. exfalso. revert Hrun.
    destruct before as [|? [|? [|? ?]]]; simpl; intros; simplify_eq. }
  destruct (templates_at C _) as [v|]; simpl.
  2: { intros Hrun _. exfalso. revert Hrun.
       destruct before as [|? [|? [|? ?]]]; simpl; intros; simplify_eq. }
  destruct (String.eqb projectName ""); simpl.
  { intros Hrun _. exfalso. revert Hrun.
    destruct before as [|? [|? [|? [|? ?]]]]; simpl; intros; simplify_eq. }
  intros Hrun Hbefore. exists v. split; [done|].
  assert (∃ rest,
    before ++ WritePackageJson json :: after =
    [Track "Create App"
       (CreateAppProps (createAppOptions_of projectName options));
     EnsureDir projectName; Chdir projectName;
     LogStage "Creating project structure";
     WritePackageJson (initial_manifest projectName v)] ++ rest)
    as [rest Hstart].
  { rewrite <-Hrun. unfold prepared.
    destruct (npm C _ _); [|destruct (truthy _)]; simpl; eauto. }
  clear Hrun.
  destruct before as [|e1 [|e2 [|e3 [|e4 [|e5 before]]]]];
    simpl in Hstart; simplify_eq; [done|].
  apply Forall_cons in Hbefore as [_ Hbefore].
  apply Forall_cons in Hbefore as [_ Hbefore].
  apply Forall_cons in Hbefore as [_ Hbefore].
  apply Forall_cons in Hbefore as [_ Hbefore].
  apply Forall_cons in Hbefore as [Hbefore _]. simpl in Hbefore. tauto.
Qed.

(** C7. With the template [constructor], for which the registry has no
    entry but which it inherits from [Object.prototype], the check of
    line 52 passes, and the manifest written first, before anything is
    installed, has the name, the version and the private flag, and no
    scripts. *)
Theorem first_manifest_lacks_scripts_for_an_inherited_template :
  let options :=
    {| opt_template := Some "constructor"; opt_dbType := Some "postgres" |} in
  templates Sample.installation !! template_of options = None ∧
  ∃ rest,
    emitted (execute Sample.installation "app" (start options)) =
    [Track "Create App" (CreateAppProps
       {| co_projectName := "app"; co_dbType := Some "postgres";
          co_template := "constructor" |});
     EnsureDir "app"; Chdir "app";
     LogStage "Creating project structure";
     WritePackageJson
       {| pj_name := Some "app";
          pj_version := Some "0.0.1";
          pj_private := Some true;
          pj_scripts := None;
          pj_java := None;
          pj_dependencies := None;
          pj_devDependencies := None |};
     LogStage "Installing server dependencies";
     NpmInstall ["@cubejs-backend/server"]] ++ rest.
Proof. split; [reflexivity|]. eexists. vm_compute. reflexivity. Qed.

(** ** The two option objects *)

(** C8 does not hold as stated: when no database type is given, the
    [options] argument leaves the run with its [dbType] assigned. *)
Lemma options_argument_is_assigned :
  w_options (world (execute Sample.installation "app"
                      (start (Sample.fresh None))))
  ≠ Sample.fresh None.
Proof. vm_compute. discriminate. Qed.

(** C8, as the code has it. The record [{ projectName, dbType, template }]
    is built from the arguments as they are at the start, and every use of
    it in the run (the telemetry of the invocation, every error report)
    is a use of that record. Of the [options] argument, [template] is
    never assigned; [dbType] is left alone when it is supplied and not
    empty, and otherwise is either left alone or assigned the answer of
    the prompt. *)
Theorem createAppOptions_is_fixed (C : Collaborators)
    (projectName : string) (options : Options) :
  let r := execute C projectName (start options) in
  let o := createAppOptions_of projectName options in
  o = {| co_projectName := projectName;
         co_dbType := opt_dbType options;
         co_template := js_or (opt_template options) "express" |} ∧
  Forall (carries o) (emitted r) ∧
  opt_template (w_options (world r)) = opt_template options ∧
  (truthy (opt_dbType options) = true → w_options (world r) = options) ∧
  (opt_dbType (w_options (world r)) = opt_dbType options ∨
   truthy (opt_dbType options) = false ∧
   opt_dbType (w_options (world r))
     = Some (promptAnswer C (keys (Drivers C)))).
Proof.
  intros r o. split; [done|]. split.
  { eapply Forall_impl; [apply execute_events|].
    intros e [[]|[[]|[]]]; simpl; auto. }
  assert (w_options (world r) = options ∨
          truthy (opt_dbType options) = false ∧
          w_options (world r) =
            {| opt_template := opt_template options;
               opt_dbType := Some (promptAnswer C (keys (Drivers C))) |})
    as Hfinal.
  { subst r. rewrite world_execute.
    destruct (outcome (prepare C projectName (start options)))
      as [[o' tc]| |] eqn:Hreached.
    - rewrite (build_keeps C projectName o' tc _).
      rewrite (prepare_options C _ _ _ Hreached). unfold chosen_dbType.
      destruct (truthy _); [left; by destruct options|by right].
    - left. revert Hreached. rewrite prepare_run. simpl.
      by repeat case_match.
    - left. revert Hreached. rewrite prepare_run. simpl.
      by repeat case_match. }
  destruct Hfinal as [->|[Hk ->]]; simpl.
  - auto.
  - split; [done|]. split; [by rewrite Hk|]. by right.
Qed.

Lemma createAppOptions_is_fixed_witness :
  w_options (world (execute Sample.installation "app"
                      (start (Sample.fresh (Some "hive")))))
  = Sample.fresh (Some "hive").
Proof.
  apply (createAppOptions_is_fixed Sample.installation "app"
           (Sample.fresh (Some "hive"))).
  reflexivity.
Defined.

(** ** The driver packages and the JDBC bridge *)

Lemma first_is_jdbc_true (l : list string) :
  first_is_jdbc l = true ↔ head l = Some "@cubejs-backend/jdbc-driver".
Proof. unfold first_is_jdbc. by rewrite bool_decide_eq_true. Qed.

Lemma first_is_jdbc_false (l : list string) :
  first_is_jdbc l = false ↔ head l ≠ Some "@cubejs-backend/jdbc-driver".
Proof. unfold first_is_jdbc. by rewrite bool_decide_eq_false. Qed.

(** Appending does not change which package comes first. *)
Lemma first_is_jdbc_push (l : list string) (x : string) :
  first_is_jdbc l = true → first_is_jdbc (l ++ [x]) = true.
Proof. rewrite !first_is_jdbc_true. by destruct l. Qed.

(** The second test of the first package (line 99) agrees with the first
    (line 94). *)
Lemma first_is_jdbc_packages_to_install (found : option DriverDependency) :
  first_is_jdbc (packages_to_install found) = first_is_jdbc (to_array found).
Proof.
  unfold packages_to_install.
  destruct (first_is_jdbc (to_array found)) eqn:Hfirst; [|done].
  by apply first_is_jdbc_push.
Qed.

Lemma jdbc_manifest_rewritten (description : DbTypeDescription)
    (json : PackageJson) :
  rewritten_for_jdbc description json (jdbc_manifest description json).
Proof.
  split; [|done]. eexists. split; [done|]. split.
  - apply lookup_insert_eq.
  - intros name Hname. by apply lookup_insert_ne.
Qed.

Section Drivers.
Variable C : Collaborators.
Variables (projectName : string) (options : Options).
Variables (o : CreateOptions) (templateConfig : TemplateValue).

Let reached := prepare C projectName (start options).
Let dbType := chosen_dbType C options.
Let found := driverDependencies C dbType.

Hypothesis Hreached : outcome reached = Returned (o, templateConfig).
Hypothesis Hfound : truthy_dependency found = true.

(** The run from the driver installation on, when the lookup has a
    result. *)
Lemma execute_after_lookup :
  emitted (execute C projectName (start options)) =
  emitted reached ++
  [LogStage "Installing DB driver dependencies";
   DriverDependenciesCall dbType;
   NpmInstall (packages_to_install found)] ++
  match npm C (packages_to_install found) (w_packageJson (world reached)) with
  | CommandFailed => []
  | CommandDone manifest =>
      let w := with_packageJson manifest (world reached) in
      emitted (jdbc_setup C o (packages_to_install found) w) ++
      match outcome (jdbc_setup C o (packages_to_install found) w) with
      | Returned _ =>
          emitted (finish C projectName templateConfig
                     (packages_to_install found)
                     (world (jdbc_setup C o (packages_to_install found) w)))
      | _ => []
      end
  end.
Proof using Hreached Hfound.
  unfold found, dbType, reached in *.
  pose proof (prepare_options C _ _ _ Hreached) as Hoptions.
  rewrite emitted_execute, Hreached. f_equal.
  unfold build. step. rewrite install_drivers_run. simpl.
  rewrite Hoptions. simpl. rewrite Hfound.
  destruct (npm C _ _); simpl; [done|]. by rewrite emitted_bind.
Qed.

(** Lines 120-153 have no step of the JDBC bridge. *)
Lemma finish_has_no_jdbc_step driverDependencies (w : World) :
  Forall (λ e, ¬ jdbc_step e)
    (emitted (finish C projectName templateConfig driverDependencies w)).
Proof.
  eapply Forall_impl.
  - by apply (finish_spec C projectName templateConfig driverDependencies
                (opt_dbType (w_options w))).
  - intros e []; simpl; tauto.
Qed.

(** C5. When the lookup answers with the JDBC bridge first, the Maven
    helper is appended to the packages handed to the installer. Every
    manifest written after that is the manifest as read back with the
    JDBC merge for the descriptor of the database type: the script
    [install] is the path of the Maven helper, and the [java] field is the
    one-element list of the Maven coordinate exactly when the descriptor
    has one. Every such write is followed at once by the re-run of the
    installation. The write takes place whenever the driver installation
    completes with a readable manifest and the descriptor exists. *)
Theorem jdbc_bridge_is_set_up :
  head (to_array found) = Some "@cubejs-backend/jdbc-driver" →
  let packages := to_array found ++ ["node-java-maven"] in
  let r := execute C projectName (start options) in
  ∃ rest,
    emitted r =
      emitted reached ++
      [LogStage "Installing DB driver dependencies";
       DriverDependenciesCall dbType;
       NpmInstall packages] ++ rest ∧
    (∀ rewritten,
       WritePackageJson rewritten ∈ rest →
       ∃ description json before after,
         dbTypeDescription C dbType = Some description ∧
         rewritten_for_jdbc description json rewritten ∧
         rest = before ++ WritePackageJson rewritten
                         :: ExecuteCommand "npm" ["install"] :: after) ∧
    (∀ json description,
       npm C packages (w_packageJson (world reached))
         = CommandDone (Some json) →
       dbTypeDescription C dbType = Some description →
       ∃ rewritten after,
         rewritten_for_jdbc description json rewritten ∧
         rest = [LogStage "Installing JDBC dependencies";
                 DbTypeDescriptionCall dbType;
                 WritePackageJson rewritten;
                 ExecuteCommand "npm" ["install"]] ++ after).
Proof using Hreached Hfound.
  intros Hfirst packages r. apply first_is_jdbc_true in Hfirst.
  assert (packages_to_install found = packages) as Hpackages.
  { unfold packages_to_install. by rewrite Hfirst. }
  pose proof (prepare_options C _ _ _ Hreached) as Hoptions.
  fold reached in Hoptions.
  subst r. rewrite execute_after_lookup, Hpackages.
  eexists. split; [reflexivity|].
  destruct (npm C packages _) as [|manifest] eqn:Hnpm.
  { split; [by intros ? ?%elem_of_nil|done]. }
  simpl. rewrite jdbc_setup_run. simpl. rewrite Hoptions. simpl.
  fold dbType. unfold packages. rewrite (first_is_jdbc_push _ _ Hfirst).
  destruct (dbTypeDescription C dbType) as [description|].
  2: { split; [|done]. intros rewritten. simpl.
       rewrite !elem_of_cons, elem_of_nil.
       intros Hin. repeat (destruct Hin as [Hin|Hin]; [done|]). done. }
  destruct manifest as [json|].
  2: { split; [|done]. intros rewritten. simpl.
       rewrite !elem_of_cons, elem_of_nil.
       intros Hin. repeat (destruct Hin as [Hin|Hin]; [done|]). done. }
  pose proof (jdbc_manifest_rewritten description json) as Hrewritten.
  set (after :=
    match outcome match command C "npm" ["install"] _ with
                  | CommandFailed => _ | CommandDone _ => _ end with
    | Returned _ => _ | _ => [] end).
  assert (Forall (λ e, ¬ jdbc_step e) after) as Hafter.
  { subst after. destruct (command C _ _ _); simpl; [constructor|].
    apply finish_has_no_jdbc_step. }
  assert (emitted match command C "npm" ["install"]
                          (Some (jdbc_manifest description json)) with
                  | CommandFailed => _ | CommandDone _ => _ end =
          [LogStage "Installing JDBC dependencies";
           DbTypeDescriptionCall dbType;
           WritePackageJson (jdbc_manifest description json);
           ExecuteCommand "npm" ["install"]]) as ->
    by (by destruct (command C _ _ _)).
  split.
  - intros rewritten. rewrite elem_of_app, !elem_of_cons, elem_of_nil.
    intros [[?|[?|[[= ->]|[?|[]]]]]|Hin]; try done.
    + exists description, json,
        [LogStage "Installing JDBC dependencies"; DbTypeDescriptionCall dbType],
        after.
      done.
    + rewrite Forall_forall in Hafter. by destruct (Hafter _ Hin).
  - intros ? ? [= <-] [= <-]. by exists (jdbc_manifest description json), after.
Qed.


End Drivers.


Lemma jdbc_bridge_is_set_up_witness :
  ∃ rewritten after,
    emitted (execute Sample.installation "app"
               (start (Sample.fresh (Some "hive")))) =
    emitted (prepare Sample.installation "app"
               (start (Sample.fresh (Some "hive")))) ++
    [LogStage "Installing DB driver dependencies";
     DriverDependenciesCall (Some "hive");
     NpmInstall ["@cubejs-backend/jdbc-driver"; "node-java-maven"];
     LogStage "Installing JDBC dependencies";
     DbTypeDescriptionCall (Some "hive");
     WritePackageJson rewritten;
     ExecuteCommand "npm" ["install"]] ++ after ∧
    pj_java rewritten = Some {| java_dependencies := [Sample.hive_jdbc] |}.
Proof.
  destruct (jdbc_bridge_is_set_up Sample.installation "app"
              (Sample.fresh (Some "hive"))
              (createAppOptions_of "app" (Sample.fresh (Some "hive")))
              (Registered Sample.express) eq_refl eq_refl eq_refl)
    as (rest & Hrun & _ & Hsetup).
  destruct (Hsetup (initial_manifest "app" (Registered Sample.express))
              {| mavenDependency := Some Sample.hive_jdbc |})
    as (rewritten & after & (_ & Hjava & _) & Hrest);
    [vm_compute; reflexivity..|].
  exists rewritten, after. split; [|exact Hjava].
  rewrite Hrun, Hrest. reflexivity.
Defined.

(** ** The files of the template *)

Lemma writes_app (l1 l2 : list Event) : writes (l1 ++ l2) = writes l1 ++ writes l2.
Proof. apply omap_app. Qed.

Lemma renders_app (l1 l2 : list Event) :
  renders (l1 ++ l2) = renders l1 ++ renders l2.
Proof. apply omap_app. Qed.

Lemma untouched (l : list Event) :
  Forall (λ e, ¬ touches_template_file e) l → writes l = [] ∧ renders l = [].
Proof.
  induction 1 as [|e l He _ IH]; [done|].
  destruct e; simpl in He; try exact IH; tauto.
Qed.

Lemma writes_file_events (env : Environment)
    (files : list (string * (Environment → string))) :
  writes (files ≫= file_events env) = (λ file, (file.1, file.2 env)) <$> files.
Proof.
  induction files as [|file files IH]; [done|].
  change ((file :: files) ≫= file_events env)
    with (file_events env file ++ (files ≫= file_events env)).
  by rewrite writes_app, IH.
Qed.

Lemma renders_file_events (env : Environment)
    (files : list (string * (Environment → string))) :
  renders (files ≫= file_events env) = (λ file, (file.1, env)) <$> files.
Proof.
  induction files as [|file files IH]; [done|].
  change ((file :: files) ≫= file_events env)
    with (file_events env file ++ (files ≫= file_events env)).
  by rewrite renders_app, IH.
Qed.

(** The [ensureDir] calls render and write nothing. *)
Lemma ensured_dirs_touch_no_file (C : Collaborators)
    (fileNames : list string) :
  writes (EnsureDir ∘ dirname C <$> fileNames) = [] ∧
  renders (EnsureDir ∘ dirname C <$> fileNames) = [].
Proof. by induction fileNames. Qed.

(** Every callback resumes, once. *)
Lemma resumed_Permutation (C : Collaborators)
    (files : gmap string (Environment → string)) :
  resumed C files ≡ₚ map_to_list files.
Proof. apply merge_sort_Permutation. Qed.

Lemma writes_files_events (C : Collaborators) (env : Environment)
    (files : gmap string (Environment → string)) :
  writes (files_events C env files)
    = (λ file, (file.1, file.2 env)) <$> resumed C files.
Proof.
  unfold files_events. rewrite writes_app, writes_file_events.
  by destruct (ensured_dirs_touch_no_file C (keys files)) as [-> _].
Qed.

Lemma renders_files_events (C : Collaborators) (env : Environment)
    (files : gmap string (Environment → string)) :
  renders (files_events C env files) = (λ file, (file.1, env)) <$> resumed C files.
Proof.
  unfold files_events. rewrite renders_app, renders_file_events.
  by destruct (ensured_dirs_touch_no_file C (keys files)) as [_ ->].
Qed.

Section Files.
Variable C : Collaborators.
Implicit Types (w : World) (o : CreateOptions) (v : TemplateValue).
Implicit Types (projectName : string).

Lemma prepare_touches_no_file projectName w :
  writes (emitted (prepare C projectName w)) = [] ∧
  renders (emitted (prepare C projectName w)) = [].
Proof.
  apply untouched. eapply Forall_impl; [apply prepare_events|].
  intros e []; simpl; tauto.
Qed.

Lemma install_drivers_touches_no_file o w :
  writes (emitted (install_drivers C o w)) = [] ∧
  renders (emitted (install_drivers C o w)) = [].
Proof.
  apply untouched. eapply Forall_impl.
  - by apply (install_drivers_spec C o (opt_dbType (w_options w))).
  - intros e []; simpl; tauto.
Qed.

Lemma jdbc_setup_touches_no_file o driverDependencies w :
  writes (emitted (jdbc_setup C o driverDependencies w)) = [] ∧
  renders (emitted (jdbc_setup C o driverDependencies w)) = [].
Proof.
  apply untouched. eapply Forall_impl.
  - by apply (jdbc_setup_spec C o (opt_dbType (w_options w))).
  - intros e []; simpl; tauto.
Qed.

Lemma install_template_dependencies_touches_no_file v w :
  writes (emitted (install_template_dependencies C v w)) = [] ∧
  renders (emitted (install_template_dependencies C v w)) = [].
Proof.
  apply untouched.
  by apply (install_template_dependencies_events C v
              (λ _, True) (λ e, ¬ touches_template_file e)); simpl; auto.
Qed.

(** What a run of lines 120-153 that returns has written. *)
Lemma finish_returned projectName v driverDependencies w :
  outcome (finish C projectName v driverDependencies w)
    = Returned tt →
  ∃ driverClass declared,
    files_of v = Some declared ∧
    let env := make_env C projectName (w_options w) driverClass in
    let files := resumed C declared in
    let done := emitted (finish C projectName v
                           driverDependencies w) in
    writes done = (λ file, (file.1, file.2 env)) <$> files ∧
    renders done = (λ file, (file.1, env)) <$> files.
Proof.
  unfold finish. intros Hfinish.
  apply bind_returned in Hfinish as ([] & Hfiles & Hrest & -> & _).
  apply bind_returned in Hrest as ([] & _ & _ & -> & _).
  rewrite !writes_app, !renders_app.
  destruct (install_template_dependencies_touches_no_file v
              (world (write_files C projectName v
                        driverDependencies w))) as [-> ->].
  rewrite report_success_run. revert Hfiles. rewrite write_files_run.
  destruct (requireDriver C _) as [driverClass|]; [|done].
  destruct (files_of v) as [declared|]; [|done].
  intros _. exists driverClass, declared. split; [done|]. simpl.
  change (writes (LogStage ?m :: ?l)) with (writes l).
  change (renders (LogStage ?m :: ?l)) with (renders l).
  rewrite writes_files_events, renders_files_events.
  by rewrite !app_nil_r.
Qed.

(** C6. In a run that returns, the files written are exactly the files
    the template declares, each once and each with the content its
    renderer gives for one and the same environment; that environment
    carries the name of the project, the chosen database type and a
    secret that is the hexadecimal form of 64 random bytes, 128
    characters long. *)
Theorem template_files_are_rendered_from_one_environment
    (projectName : string) (options : Options) :
  let r := execute C projectName (start options) in
  outcome r = Returned tt →
  ∃ templateConfig env,
    templates C !! template_of options = Some templateConfig ∧
    env_projectName env = projectName ∧
    env_dbType env = chosen_dbType C options ∧
    env_apiSecret env = toString_hex (randomBytes (entropy C) 64) ∧
    length (randomBytes (entropy C) 64) = 64 ∧
    String.length (env_apiSecret env) = 128 ∧
    Forall (λ c, is_hex_char c = true)
      (list_ascii_of_string (env_apiSecret env)) ∧
    (∀ fileName content,
       (fileName, content) ∈ writes (emitted r) ↔
       ∃ render, tc_files templateConfig !! fileName = Some render ∧
                 content = render env) ∧
    (∀ fileName env', (fileName, env') ∈ renders (emitted r) → env' = env) ∧
    NoDup (writes (emitted r)).*1 ∧
    length (writes (emitted r)) = size (tc_files templateConfig).
Proof.
  intros r Hreturned. subst r. revert Hreturned.
  rewrite outcome_execute, emitted_execute.
  destruct (outcome (prepare C projectName (start options)))
    as [[o tc]| |] eqn:Hreached; [|done..].
  pose proof (prepare_options C _ _ _ Hreached) as Hoptions.
  apply prepare_returns in Hreached as (_ & Htc & _ & _).
  unfold build. intros Hbuild.
  apply bind_returned in Hbuild as (deps & _ & Hrest & -> & _).
  apply bind_returned in Hrest as ([] & _ & Hfinish & -> & _).
  apply finish_returned in Hfinish
    as (driverClass & declared & Hdeclared & Hwrites & Hrenders).
  destruct tc as [tc|]; [|done]. injection Hdeclared as <-.
  apply templates_at_registered in Htc.
  pose proof (resumed_Permutation C (tc_files tc)) as Hresumed.
  pose proof (jdbc_setup_keeps C o deps
                (world (install_drivers C o
                          (world (prepare C projectName (start options))))))
    as Hkept.
  unfold keeps_options in Hkept.
  rewrite (install_drivers_keeps C o _), Hoptions in Hkept.
  rewrite Hkept in Hwrites, Hrenders. clear Hkept.
  rewrite !writes_app, !renders_app, Hwrites, Hrenders.
  destruct (prepare_touches_no_file projectName (start options)) as [-> ->].
  destruct (install_drivers_touches_no_file o
              (world (prepare C projectName (start options)))) as [-> ->].
  destruct (jdbc_setup_touches_no_file o deps
              (world (install_drivers C o
                        (world (prepare C projectName (start options))))))
    as [-> ->].
  rewrite !app_nil_l.
  set (env := make_env C projectName _ driverClass).
  exists tc, env. split_and!;
    [done|done|done|done|apply length_randomBytes| |
     apply toString_hex_is_hex|..].
  - change (env_apiSecret env)
      with (toString_hex (randomBytes (entropy C) 64)).
    by rewrite length_toString_hex, length_randomBytes.
  - intros fileName content. rewrite list_elem_of_fmap. split.
    + intros ([fileName' render] & [= -> ->] & Hfile).
      rewrite Hresumed in Hfile. apply elem_of_map_to_list in Hfile.
      by exists render.
    + intros (render & Hfile & ->). exists (fileName, render).
      split; [done|]. rewrite Hresumed. by apply elem_of_map_to_list.
  - intros fileName env'. rewrite list_elem_of_fmap.
    by intros (file & [= _ ->] & _).
  - rewrite <-list_fmap_compose, Hresumed. apply NoDup_fst_map_to_list.
  - by rewrite length_fmap, Hresumed, length_map_to_list.
Qed.

End Files.

Lemma template_files_are_rendered_from_one_environment_witness :
  ∃ env,
    env_projectName env = "app" ∧
    String.length (env_apiSecret env) = 128 ∧
    ∀ fileName content,
      (fileName, content)
        ∈ writes (emitted (execute Sample.installation "app"
                             (start (Sample.fresh (Some "postgres"))))) ↔
      ∃ render, tc_files Sample.express !! fileName = Some render ∧
                content = render env.
Proof.
  destruct (template_files_are_rendered_from_one_environment
              Sample.installation "app" (Sample.fresh (Some "postgres")))
    as (tc & env & Htc & Hname & _ & _ & _ & Hlength & _ & Hwrites & _);
    [vm_compute; reflexivity|].
  assert (Some tc = Some Sample.express) as [= ->]
    by (rewrite <-Htc; reflexivity).
  exists env. split; [exact Hname|]. split; [exact Hlength|exact Hwrites].
Defined.

(** ** The default template *)

Lemma same_run_emit (e : Event) (w w' : World) :
  same_but_template w w' → same_run (emit e w) (emit e w').
Proof. by intros Hw. Qed.

Lemma same_run_ret {A} (a : A) (w w' : World) :
  same_but_template w w' → same_run ((mret a : M A) w) ((mret a : M A) w').
Proof. by intros Hw. Qed.

Section Default.
Variable C : Collaborators.
Implicit Types (w v : World) (o : CreateOptions).
Implicit Types (projectName : string) (templateConfig : TemplateValue).

Lemma same_run_npmInstall packages w w' :
  same_but_template w w' →
  same_run (npmInstall C packages w) (npmInstall C packages w').
Proof.
  intros (Hk & Hjson & Hcwd).
  unfold npmInstall, subprocess, same_run, same_but_template. step.
  rewrite <-Hjson. destruct (npm C _ _); simpl; auto.
Qed.

Lemma same_run_install_drivers o w w' :
  same_but_template w w' →
  same_run (install_drivers C o w) (install_drivers C o w').
Proof.
  intros (Hk & Hjson & Hcwd). rewrite !install_drivers_run.
  unfold unsupported_db_type, same_run, same_but_template. simpl.
  rewrite <-Hk, <-Hjson.
  repeat case_match; simpl; intuition congruence.
Qed.

Lemma same_run_jdbc_setup o driverDependencies w w' :
  same_but_template w w' →
  same_run (jdbc_setup C o driverDependencies w)
    (jdbc_setup C o driverDependencies w').
Proof.
  intros (Hk & Hjson & Hcwd). rewrite !jdbc_setup_run.
  unfold unsupported_db_type, same_run, same_but_template. simpl.
  rewrite <-Hk, <-Hjson.
  repeat case_match; simpl; intuition congruence.
Qed.

Lemma same_run_write_files projectName templateConfig driverDependencies w w' :
  same_but_template w w' →
  same_run (write_files C projectName templateConfig driverDependencies w)
    (write_files C projectName templateConfig driverDependencies w').
Proof.
  intros (Hk & Hjson & Hcwd). rewrite !write_files_run.
  unfold make_env, same_run, same_but_template. rewrite <-Hk.
  repeat case_match; simpl; auto.
Qed.

Lemma same_run_install_template_dependencies templateConfig w w' :
  same_but_template w w' →
  same_run (install_template_dependencies C templateConfig w)
    (install_template_dependencies C templateConfig w').
Proof.
  intros Hw. unfold install_template_dependencies.
  apply same_run_bind; [|intros [] v v' Hv].
  all: case_match; [|by apply same_run_ret].
  all: apply same_run_bind; [by apply same_run_emit|intros [] ???].
  all: by apply same_run_npmInstall.
Qed.

Lemma same_run_report_success projectName w w' :
  same_but_template w w' →
  same_run (report_success C projectName w) (report_success C projectName w').
Proof.
  intros (Hk & Hjson & Hcwd). rewrite !report_success_run.
  unfold same_run, same_but_template. simpl. rewrite <-Hk. auto.
Qed.

Lemma same_run_build projectName o templateConfig w w' :
  same_but_template w w' →
  same_run (build C projectName o templateConfig w)
    (build C projectName o templateConfig w').
Proof.
  intros Hw. unfold build.
  apply same_run_bind; [by apply same_run_install_drivers|].
  intros deps v v' Hv.
  apply same_run_bind; [by apply same_run_jdbc_setup|].
  intros [] u u' Hu. unfold finish.
  apply same_run_bind; [by apply same_run_write_files|].
  intros [] t t' Ht.
  apply same_run_bind; [by apply same_run_install_template_dependencies|].
  intros [] ???. by apply same_run_report_success.
Qed.

Lemma same_run_prepare projectName w w' :
  same_but_template w w' →
  template_of (w_options w) = template_of (w_options w') →
  same_run (prepare C projectName w) (prepare C projectName w').
Proof.
  intros (Hk & Hjson & Hcwd) Htemplate. rewrite !prepare_run.
  unfold createAppOptions_of, same_run, same_but_template. simpl.
  rewrite <-Htemplate, <-Hk.
  repeat case_match; simpl; intuition congruence.
Qed.

(** Two invocations that differ only by a template that is absent in one
    and gives the same key in the other are the same run. *)
Lemma same_run_execute projectName w w' :
  same_but_template w w' →
  template_of (w_options w) = template_of (w_options w') →
  same_run (execute C projectName w) (execute C projectName w').
Proof.
  intros Hw Htemplate. rewrite !execute_run, <-!run_bind.
  apply same_run_bind; [by apply same_run_prepare|].
  intros [o tc] v v' Hv. by apply same_run_build.
Qed.

(** A template that the property read of line 52 finds is never reported
    as unknown. *)
Lemma found_template_is_not_reported projectName options templateConfig :
  templates_at C (template_of options) = Some templateConfig →
  ¬ reports_unknown_template C projectName options.
Proof.
  intros Htc [o Hreport]. revert Hreport.
  rewrite emitted_execute, elem_of_app. intros [Hreport|Hreport].
  - revert Hreport. rewrite prepare_run. simpl. rewrite Htc.
    unfold prepared, unknown_template, directory_exists.
    repeat case_match; simpl; rewrite ?elem_of_app, ?elem_of_cons, ?elem_of_nil.
    all: intros Hin; decompose [or] Hin; try done.
    all: match goal with Heq : DisplayError _ _ = _ |- _ => revert Heq end.
    all: cbv [String.append]; discriminate.
  - destruct (outcome _) as [[o' tc]| |]; [|by apply elem_of_nil in Hreport..].
    pose proof (build_spec C projectName o' tc _
                  (world (prepare C projectName (start options))) eq_refl)
      as [Hevents _].
    rewrite Forall_forall in Hevents. apply Hevents in Hreport.
    revert Hreport. unfold unknown_template.
    intros [Hev|Hev]; inversion Hev.
Qed.

(** C10. An empty [options.template] is treated as an absent one: the
    template key is ["express"] in both cases, the record of the
    invocation is the same, and the two runs have the same interactions
    and the same end. So when ["express"] is registered, no
    unknown-template error is reported for the empty template. *)
Theorem empty_template_is_the_default
    (projectName : string) (dbType : option string) :
  let empty := {| opt_template := Some ""; opt_dbType := dbType |} in
  let absent := {| opt_template := None; opt_dbType := dbType |} in
  template_of empty = "express" ∧
  template_of absent = "express" ∧
  createAppOptions_of projectName empty
    = createAppOptions_of projectName absent ∧
  emitted (execute C projectName (start empty))
    = emitted (execute C projectName (start absent)) ∧
  outcome (execute C projectName (start empty))
    = outcome (execute C projectName (start absent)) ∧
  (is_Some (templates C !! "express") →
   ¬ reports_unknown_template C projectName empty).
Proof.
  intros empty absent.
  destruct (same_run_execute projectName (start empty) (start absent))
    as (Hemitted & Houtcome & _); [done..|].
  split_and!; try done.
  intros [tc Htc%templates_at_registered].
  by apply (found_template_is_not_reported _ _ (Registered tc)).
Qed.

End Default.

Lemma empty_template_is_the_default_witness :
  ¬ reports_unknown_template Sample.installation "app"
      {| opt_template := Some ""; opt_dbType := Some "postgres" |}.
Proof.
  apply (empty_template_is_the_default Sample.installation "app"
           (Some "postgres")).
  by eexists.
Defined.

(** ** More about the runs *)

#[local] Instance keeps_frame_trans : Transitive keeps_frame.
Proof. intros w1 w2 w3 [??] [??]. split; congruence. Qed.

(** A report in the first part ends the run; without one, the second
    part decides. *)
Lemma reported_bind {A B} (m : M A) (k : A → M B) (w : World) :
  reported (m w) → (∀ a v, reported (k a v)) → reported ((m ≫= k) w).
Proof.
  unfold reported. rewrite emitted_bind, outcome_bind.
  intros Hm Hk. destruct (outcome (m w)) as [a| |e].
  - specialize (Hk a (world (m w))).
    destruct (outcome (k a (world (m w)))).
    + by apply Forall_app.
    + destruct Hk as (before & text & o & -> & Hbefore).
      exists (emitted (m w) ++ before), text, o.
      split; [by rewrite app_assoc|by apply Forall_app].
    + by apply Forall_app.
  - by rewrite app_nil_r.
  - by rewrite app_nil_r.
Qed.

Lemma reported_quiet {A} (r : Run A) :
  outcome r ≠ Exited → Forall (λ e, ¬ is_report e) (emitted r) → reported r.
Proof. unfold reported. by destruct (outcome r). Qed.

(** Closes [Forall P l] for a list [l] that is written out. *)
Ltac each :=
  simpl;
  repeat first [apply Forall_nil_2 | apply Forall_cons_2; [simpl; tauto|]].

Section More.
Variable C : Collaborators.
Implicit Types (w : World) (o : CreateOptions).
Implicit Types (projectName : string) (templateConfig : TemplateValue).

Lemma npmInstall_reported packages w : reported (npmInstall C packages w).
Proof.
  unfold npmInstall, subprocess, reported. step.
  destruct (npm C _ _); each.
Qed.

Lemma npmInstall_keeps_frame packages :
  preserves keeps_frame (npmInstall C packages).
Proof.
  intros w. unfold npmInstall, subprocess. step.
  by destruct (npm C _ _).
Qed.

Lemma prepare_reported projectName w : reported (prepare C projectName w).
Proof.
  rewrite prepare_run. unfold reported, prepared. simpl.
  destruct (pathExists C projectName); simpl.
  { eexists [_], _, _. split; [reflexivity|each]. }
  destruct (templates_at C _); simpl.
  2: { eexists [_], _, _. split; [reflexivity|each]. }
  destruct (String.eqb projectName ""); simpl; [each|].
  destruct (npm C _ _); simpl; [each|].
  destruct (truthy _); each.
Qed.

Lemma install_drivers_reported o w : reported (install_drivers C o w).
Proof.
  rewrite install_drivers_run. unfold reported. simpl.
  destruct (truthy_dependency _); simpl.
  - destruct (npm C _ _); each.
  - eexists [_; _], _, _. split; [reflexivity|each].
Qed.

Lemma jdbc_setup_reported o driverDependencies w :
  reported (jdbc_setup C o driverDependencies w).
Proof.
  rewrite jdbc_setup_run. unfold reported. simpl.
  destruct (first_is_jdbc _); simpl; [|each].
  destruct (dbTypeDescription C _); simpl.
  2: { eexists [_; _], _, _. split; [reflexivity|each]. }
  destruct (w_packageJson w); simpl; [|each].
  destruct (command C _ _ _); each.
Qed.

Lemma npmInstall_never_exits packages w :
  outcome (npmInstall C packages w) ≠ Exited.
Proof. unfold npmInstall, subprocess. step. by destruct (npm C _ _). Qed.

Lemma install_template_dependencies_never_exits templateConfig w :
  outcome (install_template_dependencies C templateConfig w) ≠ Exited.
Proof.
  unfold install_template_dependencies. rewrite outcome_bind.
  assert (∀ (packages : option (list string)) message v,
    outcome (match packages with
             | Some packages => logStage message;; npmInstall C packages
             | None => mret tt
             end v) ≠ Exited) as Hpart.
  { intros [packages|] message v; [|done].
    rewrite outcome_bind. simpl. apply npmInstall_never_exits. }
  destruct (outcome _) eqn:Hfirst; [apply Hpart| |done].
  by apply Hpart in Hfirst.
Qed.

(** Lines 120-153 report no error, so they never end the process. *)
Lemma finish_quiet projectName templateConfig driverDependencies w :
  Forall (λ e, ¬ is_report e)
    (emitted (finish C projectName templateConfig driverDependencies w)) ∧
  outcome (finish C projectName templateConfig driverDependencies w) ≠ Exited.
Proof.
  split.
  { eapply Forall_impl.
    - by apply (finish_spec C projectName templateConfig driverDependencies
                  (opt_dbType (w_options w))).
    - intros e []; simpl; tauto. }
  unfold finish. rewrite outcome_bind, write_files_run.
  destruct (requireDriver C _); simpl; [|done].
  destruct (files_of templateConfig); simpl; [|done].
  rewrite outcome_bind.
  destruct (outcome (install_template_dependencies C templateConfig w))
    eqn:Htemplate; [by rewrite report_success_run| |done].
  by apply install_template_dependencies_never_exits in Htemplate.
Qed.

Lemma finish_reported projectName templateConfig driverDependencies w :
  reported (finish C projectName templateConfig driverDependencies w).
Proof.
  destruct (finish_quiet projectName templateConfig driverDependencies w).
  by apply reported_quiet.
Qed.

Lemma build_reported projectName o templateConfig w :
  reported (build C projectName o templateConfig w).
Proof.
  unfold build.
  apply reported_bind; [apply install_drivers_reported|intros deps v].
  apply reported_bind; [apply jdbc_setup_reported|intros [] u].
  apply finish_reported.
Qed.

Lemma execute_reported projectName w : reported (execute C projectName w).
Proof.
  rewrite execute_run, <-run_bind.
  apply reported_bind; [apply prepare_reported|intros [o tc] v].
  apply build_reported.
Qed.

Lemma install_template_dependencies_keeps_frame templateConfig :
  preserves keeps_frame (install_template_dependencies C templateConfig).
Proof.
  unfold install_template_dependencies.
  apply preserves_bind; [apply _| |intros _].
  all: case_match; [|done].
  all: apply preserves_bind; [apply _|done|intros _].
  all: apply npmInstall_keeps_frame.
Qed.


(** *** The stages when they return *)

Lemma prepare_returned projectName w o templateConfig :
  outcome (prepare C projectName w) = Returned (o, templateConfig) →
  emitted (prepare C projectName w) =
    prepared projectName o templateConfig ++
    (if truthy (opt_dbType (w_options w)) then []
     else [Prompt (keys (Drivers C))]).
Proof.
  rewrite prepare_run. simpl.
  destruct (pathExists C projectName); [done|].
  destruct (templates_at C _); [|done].
  destruct (String.eqb projectName ""); [done|].
  destruct (npm C _ _); [done|].
  destruct (truthy _); simpl; intros [= <- <-]; by rewrite ?app_nil_r.
Qed.

Lemma install_drivers_returned o w packages :
  outcome (install_drivers C o w) = Returned packages →
  let dbType := opt_dbType (w_options w) in
  let found := driverDependencies C dbType in
  truthy_dependency found = true ∧
  packages = packages_to_install found ∧
  ∃ manifest,
    npm C packages (w_packageJson w) = CommandDone manifest ∧
    install_drivers C o w =
      {| emitted := [LogStage "Installing DB driver dependencies";
                     DriverDependenciesCall dbType;
                     NpmInstall packages];
         world := with_packageJson manifest w;
         outcome := Returned packages |}.
Proof.
  rewrite install_drivers_run. simpl.
  destruct (truthy_dependency _); [|done].
  destruct (npm C _ _) as [|manifest] eqn:Hnpm; [done|].
  simpl. intros [= <-]. split_and!; try done.
  exists manifest. by rewrite Hnpm.
Qed.

Lemma jdbc_setup_returned o driverDependencies w :
  outcome (jdbc_setup C o driverDependencies w) = Returned tt →
  let dbType := opt_dbType (w_options w) in
  (first_is_jdbc driverDependencies = false ∧
   jdbc_setup C o driverDependencies w =
     {| emitted := []; world := w; outcome := Returned tt |}) ∨
  (first_is_jdbc driverDependencies = true ∧
   ∃ description json manifest,
     dbTypeDescription C dbType = Some description ∧
     w_packageJson w = Some json ∧
     command C "npm" ["install"] (Some (jdbc_manifest description json))
       = CommandDone manifest ∧
     jdbc_setup C o driverDependencies w =
       {| emitted := bridge_events dbType description json;
          world := with_packageJson manifest w;
          outcome := Returned tt |}).
Proof.
  rewrite jdbc_setup_run. simpl.
  destruct (first_is_jdbc _); [|by left].
  destruct (dbTypeDescription C _) as [description|]; [|done].
  destruct (w_packageJson w) as [json|]; [|done].
  destruct (command C _ _ _) as [|manifest] eqn:Hcommand; [done|].
  intros _. right. split; [done|]. by exists description, json, manifest.
Qed.

Lemma install_template_dependencies_returned templateConfig w :
  outcome (install_template_dependencies C templateConfig w) = Returned tt →
  emitted (install_template_dependencies C templateConfig w)
    = template_dependency_events templateConfig.
Proof.
  unfold install_template_dependencies, template_dependency_events.
  assert (∀ (packages : option (list string)) message v,
    outcome (match packages with
             | Some packages => logStage message;; npmInstall C packages
             | None => mret tt
             end v) = Returned tt →
    emitted (match packages with
             | Some packages => logStage message;; npmInstall C packages
             | None => mret tt
             end v) =
    match packages with
    | Some packages => [LogStage message; NpmInstall packages]
    | None => []
    end) as Hpart.
  { intros [packages|] message v; [|done].
    unfold npmInstall, subprocess. step. by destruct (npm C _ _). }
  intros Hboth.
  apply bind_returned in Hboth as ([] & Hfirst & Hsecond & -> & _).
  by rewrite (Hpart _ _ _ Hfirst), (Hpart _ _ _ Hsecond).
Qed.

Lemma finish_returned_emitted projectName templateConfig driverDependencies w :
  outcome (finish C projectName templateConfig driverDependencies w)
    = Returned tt →
  ∃ driverClass files,
    requireDriver C (head driverDependencies) = Some driverClass ∧
    files_of templateConfig = Some files ∧
    emitted (finish C projectName templateConfig driverDependencies w) =
      LogStage "Writing files from template" ::
      files_events C (make_env C projectName (w_options w) driverClass) files
      ++ template_dependency_events templateConfig
      ++ success_events C projectName (opt_dbType (w_options w)).
Proof.
  unfold finish. intros Hfinish.
  apply bind_returned in Hfinish as ([] & Hfiles & Hrest & -> & _).
  apply bind_returned in Hrest as ([] & Htemplate & _ & -> & _).
  rewrite (install_template_dependencies_returned _ _ Htemplate).
  destruct (install_template_dependencies_keeps_frame templateConfig
              (world (write_files C projectName templateConfig
                        driverDependencies w))) as [Hkept _].
  rewrite report_success_run. simpl. rewrite Hkept. clear Hkept Htemplate.
  revert Hfiles. rewrite write_files_run.
  destruct (requireDriver C _) as [driverClass|]; [|done].
  destruct (files_of templateConfig) as [files|]; [|done].
  intros _. by exists driverClass, files.
Qed.

(** Lines 87-153 when they return, from a state in which
    [options.dbType] is [dbType]. *)
Lemma build_returned projectName o templateConfig w :
  outcome (build C projectName o templateConfig w) = Returned tt →
  let dbType := opt_dbType (w_options w) in
  let found := driverDependencies C dbType in
  ∃ driverClass files bridge,
    truthy_dependency found = true ∧
    requireDriver C (head (packages_to_install found)) = Some driverClass ∧
    files_of templateConfig = Some files ∧
    (first_is_jdbc (packages_to_install found) = false ∧ bridge = [] ∨
     first_is_jdbc (packages_to_install found) = true ∧
     ∃ description json,
       dbTypeDescription C dbType = Some description ∧
       bridge = bridge_events dbType description json) ∧
    emitted (build C projectName o templateConfig w) =
      [LogStage "Installing DB driver dependencies";
       DriverDependenciesCall dbType;
       NpmInstall (packages_to_install found)] ++
      bridge ++
      LogStage "Writing files from template" ::
      files_events C (make_env C projectName (w_options w) driverClass) files
      ++ template_dependency_events templateConfig
      ++ success_events C projectName dbType.
Proof.
  intros Hbuild. cbv zeta.
  set (dbType := opt_dbType (w_options w)).
  set (found := driverDependencies C dbType).
  unfold build in *.
  apply bind_returned in Hbuild as (deps & Hdrivers & Hrest & -> & _).
  apply install_drivers_returned in Hdrivers
    as (Hfound & -> & manifest & _ & Hdrivers).
  fold dbType found in Hfound, Hdrivers.
  rewrite Hdrivers in Hrest |- *. simpl in Hrest |- *.
  apply bind_returned in Hrest as ([] & Hbridge & Hfinish & -> & _).
  apply jdbc_setup_returned in Hbridge
    as [[Hfirst Hbridge]
       |(Hfirst & description & json & m & Hdescription & _ & _ & Hbridge)].
  all: rewrite Hbridge in Hfinish |- *; simpl in Hfinish |- *.
  all: apply finish_returned_emitted in Hfinish
         as (driverClass & files & Hclass & Hfiles & ->).
  all: simpl in *.
  - exists driverClass, files, []. split_and!; try done. by left.
  - exists driverClass, files, (bridge_events dbType description json).
    split_and!; try done.
    right. split; [done|]. by exists description, json.
Qed.

End More.

(** ** Reports, prompts and the working directory *)

(** X1. In every run an error report, if there is one, is the last
    interaction and the only report, and the process exits with it;
    conversely the process exits only with a report. *)
Theorem a_report_ends_the_run (C : Collaborators)
    (projectName : string) (options : Options) :
  let r := execute C projectName (start options) in
  (outcome r = Exited ↔ ∃ e, e ∈ emitted r ∧ is_report e) ∧
  (∀ before e after,
     emitted r = before ++ e :: after → is_report e →
     after = [] ∧ Forall (λ e', ¬ is_report e') before ∧ outcome r = Exited).
Proof.
  intros r. pose proof (execute_reported C projectName (start options)) as Hr.
  fold r in Hr. unfold reported in Hr.
  assert (∀ e, e ∈ emitted r → is_report e → outcome r = Exited) as Hexit.
  { intros e Hin He. destruct (outcome r); [|done|].
    all: rewrite Forall_forall in Hr; by destruct (Hr e Hin). }
  split.
  - split; [|intros (e & Hin & He); by apply (Hexit e)].
    intros Hexited. rewrite Hexited in Hr.
    destruct Hr as (before & text & o & -> & _).
    exists (DisplayError text o). split; [|done].
    apply elem_of_app. right. by left.
  - intros before e after Hsplit He.
    assert (outcome r = Exited) as Hexited.
    { apply (Hexit e); [|done]. rewrite Hsplit.
      apply elem_of_app. right. by left. }
    rewrite Hexited in Hr. destruct Hr as (before' & text & o & Hlast & Hquiet).
    rewrite Hlast in Hsplit. clear Hlast.
    apply app_eq_app in Hsplit as [mid [[-> Hmid]|[-> Hmid]]].
    + destruct mid as [|e' mid]; simplify_eq/=.
      * by rewrite app_nil_r in Hquiet.
      * apply Forall_app in Hquiet as [_ Hquiet].
        apply Forall_cons in Hquiet as [Hquiet _]. done.
    + destruct mid as [|e' mid]; simplify_eq/=.
      * by rewrite app_nil_r.
      * by destruct mid.
Qed.

Lemma a_report_ends_the_run_witness :
  outcome (execute Sample.installation "taken" (start (Sample.fresh None)))
  = Exited.
Proof.
  apply (a_report_ends_the_run Sample.installation "taken" (Sample.fresh None)).
  exists (DisplayError (directory_exists Sample.installation "taken")
            (createAppOptions_of "taken" (Sample.fresh None))).
  split; [|exact I].
  apply list_elem_of_In. vm_compute. right. left. reflexivity.
Defined.

Lemma build_asks_and_moves_nothing (C : Collaborators) (projectName : string)
    (o : CreateOptions) (templateConfig : TemplateValue) (w : World) :
  Forall (λ e, ¬ asks e ∧ ¬ changes_directory e ∧ ¬ tracks_invocation e)
    (emitted (build C projectName o templateConfig w)).
Proof.
  eapply Forall_impl.
  - by apply (build_spec C projectName o templateConfig
                (opt_dbType (w_options w))).
  - intros e [[]|[]]; simpl; tauto.
Qed.



(** X3. A prompt is shown only after the checks have passed and the
    server package is installed: nothing named [projectName] existed, the
    name is not empty, the property read of line 52 found the template
    (an entry of the registry or a name it inherits) and the installation
    completed. It is shown only when [options.dbType] is absent or empty,
    and its choices are the keys of the driver registry, each once. *)
Theorem prompt_comes_after_the_checks (C : Collaborators)
    (projectName : string) (options : Options) (choices : list string) :
  Prompt choices ∈ emitted (execute C projectName (start options)) →
  pathExists C projectName = false ∧
  projectName ≠ "" ∧
  (∃ templateConfig,
     templates_at C (template_of options) = Some templateConfig ∧
     npm C ["@cubejs-backend/server"]
       (Some (initial_manifest projectName templateConfig)) ≠ CommandFailed) ∧
  truthy (opt_dbType options) = false ∧
  list_to_set choices = dom (Drivers C) ∧
  NoDup choices.
Proof.
  rewrite emitted_execute, elem_of_app. intros [Hprompt|Hprompt].
  - revert Hprompt. rewrite prepare_run. unfold prepared. simpl.
    destruct (pathExists C projectName); simpl.
    { rewrite !elem_of_cons, elem_of_nil. intros Hin.
      repeat (destruct Hin as [Hin|Hin]; [done|]). done. }
    destruct (templates_at C _) as [tc|]; simpl.
    2: { rewrite !elem_of_cons, elem_of_nil. intros Hin.
         repeat (destruct Hin as [Hin|Hin]; [done|]). done. }
    destruct (String.eqb projectName "") eqn:Hname; simpl.
    { rewrite !elem_of_cons, elem_of_nil. intros Hin.
      repeat (destruct Hin as [Hin|Hin]; [done|]). done. }
    apply String.eqb_neq in Hname.
    destruct (npm C _ _) eqn:Hnpm; simpl.
    { rewrite !elem_of_cons, elem_of_nil. intros Hin.
      repeat (destruct Hin as [Hin|Hin]; [done|]). done. }
    destruct (truthy _); simpl.
    { rewrite !elem_of_cons, elem_of_nil. intros Hin.
      repeat (destruct Hin as [Hin|Hin]; [done|]). done. }
    rewrite !elem_of_cons, elem_of_nil. intros Hin.
    repeat (destruct Hin as [Hin|Hin]; [done|]).
    destruct Hin as [[= ->]|[]].
    split_and!; try done.
    + exists tc. split; [done|]. by rewrite Hnpm.
    + unfold keys. apply leibniz_equiv. symmetry. apply dom_alt.
    + apply NoDup_fst_map_to_list.
  - destruct (outcome _) as [[o tc]| |];
      [|by apply elem_of_nil in Hprompt..].
    pose proof (build_asks_and_moves_nothing C projectName o tc
                  (world (prepare C projectName (start options)))) as Hquiet.
    rewrite Forall_forall in Hquiet. apply Hquiet in Hprompt. simpl in *.
    tauto.
Qed.

Lemma prompt_comes_after_the_checks_witness :
  pathExists Sample.installation "app" = false ∧
  list_to_set (keys Sample.registry) = dom (Drivers Sample.installation).
Proof.
  destruct (prompt_comes_after_the_checks Sample.installation "app"
              (Sample.fresh None) (keys Sample.registry))
    as (Hfree & _ & _ & _ & Hchoices & _).
  - apply list_elem_of_In. vm_compute. do 7 right. left. reflexivity.
  - split; [exact Hfree|exact Hchoices].
Defined.





(** X5. Every run begins with the telemetry of the invocation, which is
    sent once; the template it carries is never empty: it is
    [options.template] when that is given and not empty, and ["express"]
    when it is absent or empty. *)
Theorem invocation_is_tracked_first_and_once (C : Collaborators)
    (projectName : string) (options : Options) :
  let r := execute C projectName (start options) in
  let o := createAppOptions_of projectName options in
  (∃ rest,
     emitted r = Track "Create App" (CreateAppProps o) :: rest ∧
     Forall (λ e, ¬ tracks_invocation e) rest) ∧
  co_template o ≠ "" ∧
  (truthy (opt_template options) = true →
   opt_template options = Some (co_template o)) ∧
  (truthy (opt_template options) = false → co_template o = "express").
Proof.
  intros r o. split; [|split; [|split]].
  - subst r. rewrite emitted_execute, prepare_run. unfold prepared. simpl.
    assert (∀ tc w,
      Forall (λ e, ¬ tracks_invocation e)
        (emitted (build C projectName o tc w))) as Hbuild.
    { intros tc w. eapply Forall_impl;
        [apply build_asks_and_moves_nothing|]. simpl. tauto. }
    destruct (pathExists C projectName); simpl;
      [eexists; split; [reflexivity|each]|].
    destruct (templates_at C _) as [tc|]; simpl;
      [|eexists; split; [reflexivity|each]].
    destruct (String.eqb projectName ""); simpl;
      [eexists; split; [reflexivity|each]|].
    destruct (npm C _ _); simpl; [eexists; split; [reflexivity|each]|].
    destruct (truthy _); simpl.
    all: eexists; split; [reflexivity|].
    all: repeat (apply Forall_cons_2; [simpl; tauto|]); apply Hbuild.
  - unfold o, createAppOptions_of, template_of, js_or. simpl.
    destruct (opt_template options) as [s|]; [|done].
    destruct (String.eqb s "") eqn:Hs; [done|].
    by apply String.eqb_neq.
  - unfold o, createAppOptions_of, template_of, js_or, truthy. simpl.
    destruct (opt_template options) as [s|]; [|done].
    by destruct (String.eqb s "").
  - unfold o, createAppOptions_of, template_of, js_or, truthy. simpl.
    destruct (opt_template options) as [s|]; [|done].
    by destruct (String.eqb s "").
Qed.

(** ** The run that returns *)

(** Appending the helper does not change which package comes first. *)
Lemma head_packages_to_install (found : option DriverDependency) :
  head (packages_to_install found) = head (to_array found).
Proof.
  unfold packages_to_install.
  destruct (first_is_jdbc (to_array found)) eqn:Hfirst; [|done].
  apply first_is_jdbc_true in Hfirst. by destruct (to_array found).
Qed.

Lemma installs_app (l1 l2 : list Event) :
  installs (l1 ++ l2) = installs l1 ++ installs l2.
Proof. apply omap_app. Qed.

Lemma installs_files_events (C : Collaborators) (env : Environment)
    (files : gmap string (Environment → string)) :
  installs (files_events C env files) = [].
Proof.
  unfold files_events. rewrite installs_app.
  assert (installs (EnsureDir ∘ dirname C <$> keys files) = []) as ->
    by by induction (keys files).
  simpl. induction (resumed C files) as [|file l IH]; [done|].
  change ((file :: l) ≫= file_events env)
    with (file_events env file ++ (l ≫= file_events env)).
  by rewrite installs_app, IH.
Qed.

Lemma installs_template_dependency_events (templateConfig : TemplateConfig) :
  installs (template_dependency_events (Registered templateConfig)) =
  option_list (tc_dependencies templateConfig) ++
  option_list (tc_devDependencies templateConfig).
Proof.
  unfold template_dependency_events. rewrite installs_app. simpl.
  by destruct (tc_dependencies _), (tc_devDependencies _).
Qed.

Section Returning.
Variable C : Collaborators.
Variables (projectName : string) (options : Options).

Let r := execute C projectName (start options).
Let o := createAppOptions_of projectName options.
Let dbType := chosen_dbType C options.
Let found := driverDependencies C dbType.

(** X6. A run that returns is the whole pipeline, in this order: the
    telemetry, the directory, the first manifest and the server package;
    the prompt if [options.dbType] was absent or empty; the lookup and
    the driver packages; the four steps of the JDBC bridge exactly when
    the bridge is the first package; for the declared files, first an
    [ensureDir] for each of them, then, file by file and each file once,
    its rendering from one environment followed by its write; the
    packages of the template; the announcement of success. The template
    is an entry of the registry and the project name is not empty. *)
Theorem returning_run_is_the_whole_pipeline :
  outcome r = Returned tt →
  ∃ templateConfig driverClass bridge declared written,
    templates C !! template_of options = Some templateConfig ∧
    projectName ≠ "" ∧
    truthy_dependency found = true ∧
    requireDriver C (head (to_array found)) = Some driverClass ∧
    (head (to_array found) ≠ Some "@cubejs-backend/jdbc-driver" ∧
     bridge = [] ∨
     head (to_array found) = Some "@cubejs-backend/jdbc-driver" ∧
     ∃ description json,
       dbTypeDescription C dbType = Some description ∧
       bridge = bridge_events dbType description json) ∧
    declared ≡ₚ map_to_list (tc_files templateConfig) ∧
    written ≡ₚ map_to_list (tc_files templateConfig) ∧
    emitted r =
      prepared projectName o (Registered templateConfig) ++
      (if truthy (opt_dbType options) then []
       else [Prompt (keys (Drivers C))]) ++
      [LogStage "Installing DB driver dependencies";
       DriverDependenciesCall dbType;
       NpmInstall (packages_to_install found)] ++
      bridge ++
      LogStage "Writing files from template" ::
      ((λ file, EnsureDir (dirname C file.1)) <$> declared) ++
      (written ≫= file_events
         {| env_dbType := dbType;
            env_apiSecret := toString_hex (randomBytes (entropy C) 64);
            env_projectName := projectName;
            env_driverEnvVariables := driverEnvVariables driverClass |})
      ++ template_dependency_events (Registered templateConfig)
      ++ success_events C projectName dbType.
Proof.
  unfold r. rewrite outcome_execute, emitted_execute.
  destruct (outcome (prepare C projectName (start options)))
    as [[o' tc]| |] eqn:Hreached; [|done..].
  pose proof (prepare_options C _ _ _ Hreached) as Hoptions.
  rewrite (prepare_returned C _ _ _ _ Hreached).
  apply prepare_returns in Hreached as (_ & Htc & -> & _ & Hname).
  change (w_options (start options)) with options in *. fold o.
  intros Hbuild.
  apply build_returned in Hbuild
    as (driverClass & files & bridge & Hfound & Hclass & Hfiles & Hbridge
        & ->).
  destruct tc as [tc|]; [|done]. injection Hfiles as <-.
  apply templates_at_registered in Htc.
  rewrite Hoptions in Hfound, Hclass, Hbridge |- *.
  simpl in Hfound, Hclass, Hbridge |- *.
  fold dbType found in Hfound, Hclass, Hbridge |- *.
  rewrite head_packages_to_install in Hclass.
  rewrite first_is_jdbc_packages_to_install in Hbridge.
  rewrite first_is_jdbc_false, first_is_jdbc_true in Hbridge.
  exists tc, driverClass, bridge, (map_to_list (tc_files tc)),
    (resumed C (tc_files tc)).
  split_and!; try done; try apply resumed_Permutation.
  unfold files_events, keys.
  rewrite <-list_fmap_compose, <-(app_assoc (_ <$> _)). reflexivity.
Qed.

(** X7. In a run that returns, the installer is called for the server
    package first, then for the driver packages, then for the packages of
    the template and last for its development packages, each of the last
    two only if the template declares it, and for nothing else. *)
Theorem packages_are_installed_in_order :
  outcome r = Returned tt →
  ∃ templateConfig,
    templates C !! template_of options = Some templateConfig ∧
    installs (emitted r) =
      [["@cubejs-backend/server"]; packages_to_install found] ++
      option_list (tc_dependencies templateConfig) ++
      option_list (tc_devDependencies templateConfig).
Proof.
  unfold r. rewrite outcome_execute, emitted_execute.
  destruct (outcome (prepare C projectName (start options)))
    as [[o' tc]| |] eqn:Hreached; [|done..].
  pose proof (prepare_options C _ _ _ Hreached) as Hoptions.
  rewrite (prepare_returned C _ _ _ _ Hreached).
  apply prepare_returns in Hreached as (_ & Htc & _ & _).
  intros Hbuild.
  apply build_returned in Hbuild
    as (driverClass & files & bridge & _ & _ & Hfiles & Hbridge & ->).
  destruct tc as [tc|]; [|done]. injection Hfiles as <-.
  apply templates_at_registered in Htc.
  rewrite Hoptions. exists tc. split; [done|].
  assert (installs bridge = []) as Hquiet.
  { by destruct Hbridge as [[_ ->]|(_ & description & json & _ & ->)]. }
  change (LogStage "Writing files from template" :: ?l)
    with ([LogStage "Writing files from template"] ++ l).
  rewrite !installs_app, Hquiet, installs_files_events,
    installs_template_dependency_events.
  destruct (truthy _); simpl; by rewrite ?app_nil_r.
Qed.

End Returning.

Lemma returning_run_is_the_whole_pipeline_witness :
  ∃ templateConfig driverClass bridge declared written,
    templates Sample.installation !! "express" = Some templateConfig ∧
    requireDriver Sample.installation
      (Some "@cubejs-backend/postgres-driver") = Some driverClass ∧
    bridge = [] ∧
    declared ≡ₚ map_to_list (tc_files templateConfig) ∧
    written ≡ₚ map_to_list (tc_files templateConfig) ∧
    emitted (execute Sample.installation "app"
               (start (Sample.fresh (Some "postgres")))) =
      prepared "app"
        (createAppOptions_of "app" (Sample.fresh (Some "postgres")))
        (Registered templateConfig) ++
      [LogStage "Installing DB driver dependencies";
       DriverDependenciesCall (Some "postgres");
       NpmInstall ["@cubejs-backend/postgres-driver"]] ++
      bridge ++
      LogStage "Writing files from template" ::
      ((λ file, EnsureDir (dirname Sample.installation file.1)) <$> declared)
      ++
      (written ≫= file_events
         {| env_dbType := Some "postgres";
            env_apiSecret :=
              toString_hex (randomBytes (entropy Sample.installation) 64);
            env_projectName := "app";
            env_driverEnvVariables := driverEnvVariables driverClass |})
      ++ template_dependency_events (Registered templateConfig)
      ++ success_events Sample.installation "app" (Some "postgres").
Proof.
  destruct (returning_run_is_the_whole_pipeline Sample.installation "app"
              (Sample.fresh (Some "postgres")))
    as (tc & driverClass & bridge & declared & written & Htc & _ & _ & Hclass
        & Hbridge & Hdeclared & Hwritten & Hrun);
    [vm_compute; reflexivity|].
  exists tc, driverClass, bridge, declared, written.
  split; [exact Htc|]. split; [exact Hclass|].
  split; [|split; [exact Hdeclared|split; [exact Hwritten|exact Hrun]]].
  destruct Hbridge as [[_ Hnone]|[Hfirst _]]; [exact Hnone|].
  vm_compute in Hfirst. discriminate Hfirst.
Defined.

Lemma packages_are_installed_in_order_witness :
  ∃ templateConfig,
    templates Sample.installation !! "express" = Some templateConfig ∧
    installs (emitted (execute Sample.installation "app"
                         (start (Sample.fresh (Some "hive"))))) =
    [["@cubejs-backend/server"];
     ["@cubejs-backend/jdbc-driver"; "node-java-maven"]] ++
    option_list (tc_dependencies templateConfig) ++
    option_list (tc_devDependencies templateConfig).
Proof.
  apply (packages_are_installed_in_order Sample.installation "app"
           (Sample.fresh (Some "hive"))).
  vm_compute. reflexivity.
Defined.

(** ** The announcement of success *)

(** What is found in a composed run and not in its first part is found
    in the second, which then decides how the run ends. *)
Lemma found_in_second_part {A B} (m : M A) (k : A → M B) (w : World)
    (P : Event → Prop) :
  Forall (λ e, ¬ P e) (emitted (m w)) →
  (∃ e, e ∈ emitted ((m ≫= k) w) ∧ P e) →
  ∃ a, outcome (m w) = Returned a ∧
       (∃ e, e ∈ emitted (k a (world (m w))) ∧ P e) ∧
       outcome ((m ≫= k) w) = outcome (k a (world (m w))).
Proof.
  intros Hfirst (e & Hin & He). revert Hin.
  rewrite emitted_bind, outcome_bind, elem_of_app. intros [Hin|Hin].
  { rewrite Forall_forall in Hfirst. by destruct (Hfirst e Hin). }
  destruct (outcome (m w)) as [a| |]; [|by apply elem_of_nil in Hin..].
  exists a. split; [done|]. split; [by exists e|done].
Qed.

Section Success.
Variable C : Collaborators.
Implicit Types (w : World) (o : CreateOptions).
Implicit Types (projectName : string) (templateConfig : TemplateValue).

Lemma build_announces projectName o templateConfig w :
  (∃ e, e ∈ emitted (build C projectName o templateConfig w) ∧
        announces_success e) →
  outcome (build C projectName o templateConfig w) = Returned tt.
Proof.
  unfold build. intros Hbuild.
  apply found_in_second_part in Hbuild as (deps & _ & Hrest & ->).
  2: { rewrite install_drivers_run. simpl.
       destruct (truthy_dependency _); [destruct (npm C _ _)|]; each. }
  apply found_in_second_part in Hrest as ([] & _ & Hfinish & ->).
  2: { rewrite jdbc_setup_run. simpl.
       destruct (first_is_jdbc _); [|each].
       destruct (dbTypeDescription C _); [|each].
       destruct (w_packageJson _); [|each].
       destruct (command C _ _ _); each. }
  unfold finish in *.
  apply found_in_second_part in Hfinish as ([] & _ & Hrest & ->).
  2: { rewrite write_files_run. destruct (requireDriver C _); [|each].
       destruct (files_of templateConfig); [|each].
       simpl. apply Forall_cons_2; [simpl; tauto|].
       unfold files_events. apply Forall_app. split.
       - apply Forall_fmap, Forall_forall. intros fileName _. simpl. tauto.
       - apply Forall_bind, Forall_forall. intros file _.
         unfold file_events. each. }
  apply found_in_second_part in Hrest as ([] & _ & _ & ->).
  2: { by apply (install_template_dependencies_events C templateConfig
                   (λ _, True) (λ e, ¬ announces_success e)); simpl; auto. }
  by rewrite report_success_run.
Qed.

(** X8. The success of the run is announced exactly when the run
    returns: the telemetry of success and the lines printed for the user
    appear in no run that is rejected or ends with a report, and in every
    run that returns. *)
Theorem success_is_announced_exactly_on_return
    (projectName : string) (options : Options) :
  let r := execute C projectName (start options) in
  (∃ e, e ∈ emitted r ∧ announces_success e) ↔ outcome r = Returned tt.
Proof.
  intros r. subst r. split.
  - rewrite execute_run, <-run_bind. intros Hrun.
    apply found_in_second_part in Hrun as ([o tc] & _ & Hbuild & ->).
    + by apply build_announces.
    + eapply Forall_impl; [apply prepare_events|].
      intros e []; simpl; tauto.
  - rewrite outcome_execute, emitted_execute.
    destruct (outcome (prepare C projectName (start options)))
      as [[o tc]| |]; [|done..].
    intros Hbuild.
    apply build_returned in Hbuild
      as (driverClass & files & bridge & _ & _ & _ & _ & ->).
    exists (Track "Create App Success"
              (SuccessProps projectName
                 (opt_dbType
                    (w_options
                       (world (prepare C projectName (start options))))))).
    split; [|exact I]. unfold success_events.
    repeat first [ apply list_elem_of_here
                 | apply elem_of_app; right
                 | apply list_elem_of_further ].
Qed.

End Success.

Lemma success_is_announced_exactly_on_return_witness :
  ¬ ∃ e, e ∈ emitted (execute Sample.installation "app"
                        (start (Sample.fresh (Some "oracle")))) ∧
         announces_success e.
Proof.
  intros Hannounced.
  apply (success_is_announced_exactly_on_return Sample.installation "app"
           (Sample.fresh (Some "oracle"))) in Hannounced.
  vm_compute in Hannounced. discriminate Hannounced.
Defined.

(** ** The descriptor of the JDBC bridge (lines 99-105) *)

(** X9. When the lookup answers with the JDBC bridge first, the driver
    packages were installed and the database type has no JDBC descriptor,
    the unsupported database type is reported and the process exits
    there. The report comes after the installation of the drivers and the
    Maven helper, which is not taken back; the manifest stays as the
    installer left it, without the JDBC merge; no file of the template is
    rendered. *)
Theorem missing_descriptor_is_reported_after_the_drivers
    (C : Collaborators) (projectName : string) (options : Options)
    (o : CreateOptions) (templateConfig : TemplateValue)
    (manifest : option PackageJson) :
  let reached := prepare C projectName (start options) in
  let dbType := chosen_dbType C options in
  let found := driverDependencies C dbType in
  outcome reached = Returned (o, templateConfig) →
  truthy_dependency found = true →
  first_is_jdbc (to_array found) = true →
  npm C (to_array found ++ ["node-java-maven"]) (w_packageJson (world reached))
    = CommandDone manifest →
  dbTypeDescription C dbType = None →
  let r := execute C projectName (start options) in
  emitted r =
    emitted reached ++
    [LogStage "Installing DB driver dependencies";
     DriverDependenciesCall dbType;
     NpmInstall (to_array found ++ ["node-java-maven"]);
     LogStage "Installing JDBC dependencies";
     DbTypeDescriptionCall dbType;
     DisplayError ("Unsupported db type: " +:+ chalk_green C (js_string dbType))
       (createAppOptions_of projectName options)] ∧
  outcome r = Exited ∧
  w_packageJson (world r) = manifest.
Proof.
  intros reached dbType found Hreached Hfound Hfirst Hinstalled Hnone r.
  subst r reached.
  pose proof (prepare_options C _ _ _ Hreached) as Hoptions.
  apply prepare_returns in Hreached as Ho. destruct Ho as (_ & _ & -> & _).
  assert (packages_to_install found = to_array found ++ ["node-java-maven"])
    as Hpackages by (unfold packages_to_install; by rewrite Hfirst).
  rewrite emitted_execute, outcome_execute, world_execute, Hreached.
  unfold build. step. rewrite install_drivers_run. simpl.
  rewrite Hoptions. simpl. fold dbType found.
  rewrite Hfound, Hpackages, Hinstalled. simpl. step.
  rewrite jdbc_setup_run. simpl.
  rewrite (first_is_jdbc_push _ _ Hfirst), ?Hoptions. simpl. fold dbType.
  rewrite Hnone. simpl. unfold unsupported_db_type. simpl.
  rewrite ?Hoptions. simpl. by fold dbType.
Qed.

Lemma missing_descriptor_is_reported_after_the_drivers_witness :
  outcome (execute Faulty.undescribed "app"
             (start (Sample.fresh (Some "hive")))) = Exited.
Proof.
  eapply (missing_descriptor_is_reported_after_the_drivers
            Faulty.undescribed "app" (Sample.fresh (Some "hive")) _
            (Registered Sample.express));
    vm_compute; reflexivity.
Defined.

(** X10. An empty list of driver packages is a result of the lookup like
    any other: nothing is reported, the installer is called with no
    package, the JDBC bridge is not set up, and the driver module is then
    required under the name of a first package that does not exist; if
    that module cannot be loaded, [execute] is rejected before any file of
    the template is written. *)
Theorem empty_lookup_result_is_not_reported
    (C : Collaborators) (projectName : string) (options : Options)
    (o : CreateOptions) (templateConfig : TemplateValue)
    (manifest : option PackageJson) :
  let reached := prepare C projectName (start options) in
  let dbType := chosen_dbType C options in
  outcome reached = Returned (o, templateConfig) →
  driverDependencies C dbType = Some (Packages []) →
  npm C [] (w_packageJson (world reached)) = CommandDone manifest →
  let r := execute C projectName (start options) in
  (∃ rest,
     emitted r =
       emitted reached ++
       [LogStage "Installing DB driver dependencies";
        DriverDependenciesCall dbType;
        NpmInstall [];
        LogStage "Writing files from template"] ++ rest ∧
     Forall (λ e, ¬ jdbc_step e) rest) ∧
  Forall (λ e, ¬ is_report e) (emitted r) ∧
  outcome r ≠ Exited ∧
  (requireDriver C None = None →
   outcome r = Thrown ModuleNotFound ∧ writes (emitted r) = []).
Proof.
  intros reached dbType Hreached Hfound Hinstalled r. subst r reached.
  pose proof (prepare_options C _ _ _ Hreached) as Hoptions.
  pose proof (prepare_returned C _ _ _ _ Hreached) as Hprepare.
  rewrite emitted_execute, outcome_execute, Hreached.
  unfold build. step. rewrite install_drivers_run. simpl.
  rewrite Hoptions. simpl. fold dbType. rewrite Hfound. simpl.
  change (packages_to_install (Some (Packages []))) with (@nil string).
  rewrite Hinstalled. simpl. step. rewrite jdbc_setup_run. simpl. step.
  set (w := with_packageJson manifest _).
  destruct (finish_quiet C projectName templateConfig [] w) as [Hquiet Hexit].
  pose proof (finish_has_no_jdbc_step C projectName templateConfig [] w)
    as Hbridge.
  split_and!.
  - revert Hbridge. unfold finish. step. rewrite write_files_run. simpl.
    destruct (requireDriver C None); simpl;
      [destruct (files_of templateConfig); simpl|].
    all: intros Hbridge; apply Forall_cons in Hbridge as [_ Hbridge]; eauto.
  - apply Forall_app. split.
    + rewrite Hprepare. unfold prepared. destruct (truthy _); each.
    + by repeat (apply Forall_cons_2; [simpl; tauto|]).
  - done.
  - intros Hmodule. unfold finish. step. rewrite write_files_run. simpl.
    rewrite Hmodule. simpl. split; [done|].
    rewrite Hprepare. unfold prepared. by destruct (truthy _).
Qed.

Lemma empty_lookup_result_is_not_reported_witness :
  outcome (execute Faulty.unlisted "app"
             (start (Sample.fresh (Some "oracle")))) = Thrown ModuleNotFound.
Proof.
  destruct (empty_lookup_result_is_not_reported Faulty.unlisted "app"
              (Sample.fresh (Some "oracle"))
              (createAppOptions_of "app" (Sample.fresh (Some "oracle")))
              (Registered Sample.express)
              (Some (initial_manifest "app" (Registered Sample.express))))
    as (_ & _ & _ & Hmodule); [vm_compute; reflexivity..|].
  by apply Hmodule.
Defined.

(** ** How a run ends *)

Section Endings.
Variable C : Collaborators.
Implicit Types (w : World) (o : CreateOptions).
Implicit Types (projectName : string) (templateConfig : TemplateValue).

(** The database type in the [options] object when [execute] has ended:
    the answer to the prompt if one was shown, and the type as given
    otherwise. *)
Lemma execute_leaves_dbType projectName (options : Options) :
  opt_dbType (w_options (world (execute C projectName (start options)))) =
  match prompts (emitted (execute C projectName (start options))) with
  | [] => opt_dbType options
  | _ => Some (promptAnswer C (keys (Drivers C)))
  end.
Proof.
  rewrite world_execute, emitted_execute. unfold prompts. rewrite omap_app.
  destruct (outcome (prepare C projectName (start options)))
    as [[o tc]| |e] eqn:Hreached.
  - pose proof (build_asks_nothing C projectName o tc
                  (world (prepare C projectName (start options)))) as Hbuild.
    unfold prompts in Hbuild. rewrite Hbuild, app_nil_r.
    rewrite (build_keeps C projectName o tc _).
    rewrite (prepare_options C _ _ _ Hreached).
    rewrite (prepare_returned C _ _ _ _ Hreached).
    unfold chosen_dbType, prepared. simpl.
    by destruct (truthy (opt_dbType options)).
  - revert Hreached. rewrite prepare_run. simpl.
    destruct (pathExists C projectName); [done|].
    destruct (templates_at C _); [|done].
    destruct (String.eqb projectName ""); [done|].
    destruct (npm C _ _); [done|]. by destruct (truthy _).
  - revert Hreached. rewrite prepare_run. simpl.
    destruct (pathExists C projectName); [done|].
    destruct (templates_at C _); [|done].
    destruct (String.eqb projectName ""); [done|].
    destruct (npm C _ _); [done|]. by destruct (truthy _).
Qed.

End Endings.

(** X11. The action registered for [create] never rejects. When
    [execute] is rejected, the action shows the text of the rejection and
    the process exits: the report is the one interaction added to those of
    [execute], and it carries the project name and the database type found
    in the [options] object at that time, which is the answer to the
    prompt if one was shown and the type given on the command line
    otherwise. When [execute] is not rejected, the action adds nothing. *)
Theorem action_reports_every_rejection (C : Collaborators)
    (stack : Failure → string) (projectName : string) (options : Options) :
  let r := execute C projectName (start options) in
  let a := action C stack projectName (start options) in
  (∀ e, act_outcome a ≠ Thrown e) ∧
  (∀ e, outcome r = Thrown e →
     act_emitted a =
       (Executed <$> emitted r) ++
       [DisplayFailure (stack e) projectName
          match prompts (emitted r) with
          | [] => opt_dbType options
          | _ => Some (promptAnswer C (keys (Drivers C)))
          end] ∧
     act_outcome a = Exited) ∧
  ((∀ e, outcome r ≠ Thrown e) →
     act_emitted a = Executed <$> emitted r ∧ act_outcome a = outcome r).
Proof.
  intros r a. subst r a. unfold action.
  pose proof (execute_leaves_dbType C projectName options) as HdbType.
  destruct (outcome (execute C projectName (start options))) as [[]| |e].
  - split_and!; done.
  - split_and!; done.
  - split_and!.
    + done.
    + intros e' [= <-]. simpl. by rewrite HdbType.
    + intros Hnever. by destruct (Hnever e).
Qed.

Lemma action_reports_every_rejection_witness :
  act_outcome (action Faulty.unlisted (λ _, "Error") "app"
                 (start (Sample.fresh None))) = Exited.
Proof.
  destruct (action_reports_every_rejection Faulty.unlisted (λ _, "Error")
              "app" (Sample.fresh None)) as (_ & Hrejected & _).
  eapply Hrejected. vm_compute. reflexivity.
Defined.

(** ** The manifest written first, and the template names the registry
    inherits *)



Section Inherited.
Variable C : Collaborators.
Implicit Types (w : World) (o : CreateOptions) (projectName : string).

(** Lines 120-153 for a value without [files]: the stage is announced and
    the run is rejected, by the module that cannot be loaded or by
    [Object.keys]. *)
Lemma finish_inherited projectName driverDependencies w :
  finish C projectName Inherited driverDependencies w =
  {| emitted := [LogStage "Writing files from template"];
     world := w;
     outcome := match requireDriver C (head driverDependencies) with
                | Some _ => Thrown TypeError
                | None => Thrown ModuleNotFound
                end |}.
Proof.
  unfold finish. apply run_ext; step; rewrite write_files_run.
  all: by destruct (requireDriver C _).
Qed.

Lemma build_inherited projectName o w :
  let r := build C projectName o Inherited w in
  let found := driverDependencies C (opt_dbType (w_options w)) in
  Forall (λ e, ¬ touches_template_file e ∧ ¬ announces_success e)
    (emitted r) ∧
  outcome r ≠ Returned tt ∧
  (LogStage "Writing files from template" ∈ emitted r →
   is_Some (requireDriver C (head (packages_to_install found))) →
   outcome r = Thrown TypeError).
Proof.
  intros r found. subst r. unfold build. step.
  rewrite install_drivers_run. simpl. fold found.
  destruct (truthy_dependency found); simpl.
  2: { split_and!; [each|done|].
       rewrite !elem_of_cons, elem_of_nil. intros Hin.
       repeat (destruct Hin as [Hin|Hin]; [done|]). done. }
  destruct (npm C _ _) as [|manifest]; simpl.
  { split_and!; [each|done|].
    rewrite !elem_of_cons, elem_of_nil. intros Hin.
    repeat (destruct Hin as [Hin|Hin]; [done|]). done. }
  step. rewrite jdbc_setup_run. simpl.
  destruct (first_is_jdbc _); simpl.
  2: { rewrite finish_inherited. simpl.
       split_and!; [each|by destruct (requireDriver C _)|].
       by intros _ [driverClass ->]. }
  destruct (dbTypeDescription C _); simpl.
  2: { split_and!; [each|done|].
       rewrite !elem_of_cons, elem_of_nil. intros Hin.
       repeat (destruct Hin as [Hin|Hin]; [done|]). done. }
  destruct manifest as [json|]; simpl.
  2: { split_and!; [each|done|].
       rewrite !elem_of_cons, elem_of_nil. intros Hin.
       repeat (destruct Hin as [Hin|Hin]; [done|]). done. }
  destruct (command C _ _ _); simpl.
  { split_and!; [each|done|].
    rewrite !elem_of_cons, elem_of_nil. intros Hin.
    repeat (destruct Hin as [Hin|Hin]; [done|]). done. }
  rewrite finish_inherited. simpl.
  split_and!; [each|by destruct (requireDriver C _)|].
  by intros _ [driverClass ->].
Qed.

(** X15. A template name that is no entry of the registry but that the
    registry inherits from [Object.prototype] ([toString],
    [constructor], ...) passes the check of line 52: no unknown-template
    error is reported anywhere in the run. If nothing named
    [projectName] exists, the directory is made sure of; the manifest
    written first has no scripts; no file of the template is rendered or
    written, no success is announced and the run never returns. When the
    run comes to writing the files and the driver module loads, [execute]
    is rejected by the [TypeError] of [Object.keys(undefined)]. *)
Theorem inherited_template_name_passes_the_check
    (projectName : string) (options : Options) :
  templates C !! template_of options = None →
  template_of options ∈ object_prototype →
  let r := execute C projectName (start options) in
  let found := driverDependencies C (chosen_dbType C options) in
  ¬ reports_unknown_template C projectName options ∧
  (pathExists C projectName = false → EnsureDir projectName ∈ emitted r) ∧
  (∀ before written after,
     emitted r = before ++ WritePackageJson written :: after →
     Forall (λ e, ¬ writes_manifest_or_installs e) before →
     written =
       {| pj_name := Some projectName;
          pj_version := Some "0.0.1";
          pj_private := Some true;
          pj_scripts := None;
          pj_java := None;
          pj_dependencies := None;
          pj_devDependencies := None |}) ∧
  Forall (λ e, ¬ touches_template_file e ∧ ¬ announces_success e)
    (emitted r) ∧
  outcome r ≠ Returned tt ∧
  (LogStage "Writing files from template" ∈ emitted r →
   is_Some (requireDriver C (head (to_array found))) →
   outcome r = Thrown TypeError).
Proof.
  intros Hunregistered Hinherited r found.
  assert (templates_at C (template_of options) = Some Inherited) as Htc
    by by apply templates_at_inherited.
  split_and!.
  - by apply (found_template_is_not_reported C _ _ Inherited).
  - intros Hfree. subst r. rewrite emitted_execute, prepare_run. simpl.
    rewrite Hfree, Htc. unfold prepared.
    apply elem_of_app. left.
    destruct (String.eqb projectName ""); [|destruct (npm C _ _);
      [|destruct (truthy _)]]; simpl; rewrite ?elem_of_app, !elem_of_cons;
      auto.
  - intros before written after Hrun Hbefore.
    destruct (first_manifest_written C projectName options before after
                written Hrun Hbefore) as (v & Hv & ->).
    rewrite Htc in Hv. by injection Hv as <-.
  - subst r. rewrite emitted_execute. apply Forall_app. split.
    { eapply Forall_impl; [apply prepare_events|].
      intros e []; simpl; tauto. }
    destruct (outcome (prepare C projectName (start options)))
      as [[o v]| |] eqn:Hreached; [|constructor..].
    apply prepare_returns in Hreached as (_ & Hv & _).
    simpl in Hv. rewrite Htc in Hv. injection Hv as <-.
    apply build_inherited.
  - subst r. rewrite outcome_execute.
    destruct (outcome (prepare C projectName (start options)))
      as [[o v]| |] eqn:Hreached; [|done..].
    apply prepare_returns in Hreached as (_ & Hv & _).
    simpl in Hv. rewrite Htc in Hv. injection Hv as <-.
    apply build_inherited.
  - subst r. rewrite outcome_execute, emitted_execute, elem_of_app.
    intros [Hin|Hin] Hclass.
    { exfalso. revert Hin. rewrite prepare_run. unfold prepared. simpl.
      repeat case_match; simpl;
        rewrite ?elem_of_app, !elem_of_cons, elem_of_nil; intros Hin;
        repeat (destruct Hin as [Hin|Hin]; [done|]); done. }
    destruct (outcome (prepare C projectName (start options)))
      as [[o v]| |] eqn:Hreached; [|by apply elem_of_nil in Hin..].
    pose proof (prepare_options C _ _ _ Hreached) as Hoptions.
    apply prepare_returns in Hreached as (_ & Hv & _).
    simpl in Hv. rewrite Htc in Hv. injection Hv as <-.
    apply build_inherited; [done|].
    rewrite Hoptions. simpl. fold found.
    by rewrite head_packages_to_install.
Qed.

End Inherited.

Lemma inherited_template_name_passes_the_check_witness :
  outcome (execute Sample.installation "app"
             (start {| opt_template := Some "toString";
                       opt_dbType := Some "postgres" |}))
  = Thrown TypeError.
Proof.
  destruct (inherited_template_name_passes_the_check Sample.installation "app"
              {| opt_template := Some "toString";
                 opt_dbType := Some "postgres" |})
    as (_ & _ & _ & _ & _ & Hrejected).
  - reflexivity.
  - apply (bool_decide_eq_true_1 ("toString" ∈ object_prototype)).
    vm_compute. reflexivity.
  - apply Hrejected.
    + apply list_elem_of_In. vm_compute. do 10 right. left. reflexivity.
    + vm_compute. eauto.
Defined.
